(** * Collapse: the animated show/hide component of react-bootstrap

    A shallow embedding of [src/Collapse.js] and the properties of its
    dimension calculator, its five phase handlers and its [render].

    The component is JavaScript working on a live DOM node, so the
    embedding has three layers:
    - [JS]: the fragment of the language the file uses (Number values
      that are integers, NaN or infinite; primitive values; string
      conversion; the [+] operator; [parseInt]);
    - [DOM]: the store of DOM nodes with their inline styles, the
      exceptions, and the state-and-exception monad in which every
      function of the component runs;
    - [Collapse]: the functions of [Collapse.js], one definition each. *)

From Stdlib Require Import ZArith Lia Ascii.
From stdpp Require Import base option list strings functions gmap pretty.

Local Open Scope Z_scope.

(* ================================================================== *)
(** ** The JavaScript fragment                                         *)
(* ================================================================== *)

Module JS.

(** A Number is an IEEE-754 double. The component only ever adds DOM
    pixel counts and the results of [parseInt], so every Number it meets
    is an integer-valued double, NaN or an infinity. [Fin z] is the double
    whose value is the integer [z]; [-0] is identified with [0], which the
    two operations used here ([+] and string conversion) cannot tell
    apart. *)
Inductive number :=
| Fin (z : Z)
| NaN
| Infinity (negative : bool).

(** Number.MAX_SAFE_INTEGER + 1: below it every integer is a double. *)
Definition two53 : Z := 2 ^ 53.

(** The first power of two that no longer is a finite double. *)
Definition two1024 : Z := 2 ^ 1024.

(** Round an integer to the nearest double, ties to the even mantissa
    (53 bits); magnitudes that round up to [2^1024] overflow. *)
Definition round_double (z : Z) : number :=
  let a := Z.abs z in
  if a <? two53 then Fin z else
  let e := Z.log2 a - 52 in
  let q := a / 2 ^ e in
  let r := a mod 2 ^ e in
  let half := 2 ^ (e - 1) in
  let q' := if r <? half then q
            else if half <? r then q + 1
            else if Z.even q then q else q + 1 in
  let m := q' * 2 ^ e in
  if two1024 <=? m then Infinity (z <? 0) else Fin (Z.sgn z * m).

(** Number addition. *)
Definition num_add (x y : number) : number :=
  match x, y with
  | NaN, _ | _, NaN => NaN
  | Infinity s, Infinity t => if Bool.eqb s t then Infinity s else NaN
  | Infinity s, Fin _ | Fin _, Infinity s => Infinity s
  | Fin a, Fin b => round_double (a + b)
  end.

(** *** Number to string

    Number::toString, radix 10. Below [2^53] the digits are those of the
    integer. From there on the result is the shortest digit string [s]
    (with [k] digits) and decimal exponent [n] such that [s * 10^(n-k)]
    rounds to the number, the closest such [s] when several have [k]
    digits; it is written with trailing zeros up to 21 digits and in
    exponent notation beyond. *)

Definition num_digits (a : Z) : Z := Z.of_nat (String.length (pretty a)).

(** The candidates with [k] digits for a number [a] of [nd] digits, as
    pairs of the digits [s] and the distance of [s * 10^(nd-k)] to [a]. *)
Definition candidates (a nd k : Z) : list (Z * Z) :=
  let step := 10 ^ (nd - k) in
  let lo := a / step in
  let ok s := andb (s <? 10 ^ k)
                   (match round_double (s * step) with
                    | Fin b => b =? a
                    | _ => false
                    end) in
  (if ok lo then [(lo, a - lo * step)] else []) ++
  (if ok (lo + 1) then [(lo + 1, (lo + 1) * step - a)] else []).

Definition closest (c : list (Z * Z)) : option Z :=
  match c with
  | [] => None
  | [(s, _)] => Some s
  | (s1, d1) :: (s2, d2) :: _ =>
      Some (if d1 <? d2 then s1
            else if d2 <? d1 then s2
            else if Z.even s1 then s1 else s2)
  end.

(** The first [k] that has a candidate, with its digits. There is one
    by [k = nd], where the digits are those of [a] itself. *)
Fixpoint shortest_from (fuel : nat) (a nd k : Z) : Z * Z :=
  match fuel with
  | O => (a, nd)
  | S fuel' =>
      match closest (candidates a nd k) with
      | Some s => (s, k)
      | None => shortest_from fuel' a nd (k + 1)
      end
  end.

(** [(s, k, n)] for an integer [a >= 2^53] that is a double. *)
Definition shortest_digits (a : Z) : Z * Z * Z :=
  let nd := num_digits a in
  match round_double (10 ^ nd) with
  | Fin b => if b =? a then (1, 1, nd + 1)
             else (shortest_from (Z.to_nat nd) a nd 1, nd)
  | _ => (shortest_from (Z.to_nat nd) a nd 1, nd)
  end.

Definition zeros (n : Z) : string :=
  String.concat EmptyString (replicate (Z.to_nat n) "0"%string).

Definition big_to_string (a : Z) : string :=
  let '(s, k, n) := shortest_digits a in
  let digits := pretty s in
  if n <=? 21 then digits +:+ zeros (n - k)
  else
    match digits with
    | String d rest =>
        String d (if k =? 1 then EmptyString else "." +:+ rest)
          +:+ "e+" +:+ pretty (n - 1)
    | EmptyString => EmptyString
    end.

Definition number_to_string (x : number) : string :=
  match x with
  | NaN => "NaN"
  | Infinity false => "Infinity"
  | Infinity true => "-Infinity"
  | Fin z =>
      if Z.abs z <? two53 then pretty z
      else (if z <? 0 then "-" +:+ big_to_string (Z.abs z)
            else big_to_string (Z.abs z))
  end.

(** *** Primitive values *)

Inductive value :=
| VUndefined
| VNull
| VBool (b : bool)
| VNum (n : number)
| VStr (s : string).

(** ToString. *)
Definition to_string (v : value) : string :=
  match v with
  | VUndefined => "undefined"
  | VNull => "null"
  | VBool true => "true"
  | VBool false => "false"
  | VNum n => number_to_string n
  | VStr s => s
  end.

(** ToBoolean: what [v ? a : b] and [a || b] test. *)
Definition to_boolean (v : value) : bool :=
  match v with
  | VUndefined | VNull => false
  | VBool b => b
  | VNum (Fin z) => negb (z =? 0)
  | VNum NaN => false
  | VNum (Infinity _) => true
  | VStr s => negb (String.eqb s EmptyString)
  end.

(** [a === b]. *)
Definition strict_equals (a b : value) : bool :=
  match a, b with
  | VUndefined, VUndefined | VNull, VNull => true
  | VBool x, VBool y => Bool.eqb x y
  | VNum (Fin x), VNum (Fin y) => x =? y
  | VNum (Infinity s), VNum (Infinity t) => Bool.eqb s t
  | VStr x, VStr y => String.eqb x y
  | _, _ => false
  end.

(** ToNumber of a primitive that is not a string (the only case [+]
    reaches below). *)
Definition to_number (v : value) : number :=
  match v with
  | VUndefined => NaN
  | VNull => Fin 0
  | VBool b => Fin (if b then 1 else 0)
  | VNum n => n
  | VStr _ => NaN
  end.

(** The [+] operator on primitives: concatenation as soon as one side is
    a string, numeric addition otherwise. *)
Definition js_add (a b : value) : value :=
  match a, b with
  | VStr _, _ | _, VStr _ => VStr (to_string a +:+ to_string b)
  | _, _ => VNum (num_add (to_number a) (to_number b))
  end.

(** *** parseInt *)

(** White space that [parseInt] skips (the one-byte characters: TAB, LF,
    VT, FF, CR, SP). *)
Definition is_white_space (c : ascii) : bool :=
  let n := N.of_nat (nat_of_ascii c) in
  orb (andb (9 <=? n)%N (n <=? 13)%N) (n =? 32)%N.

Fixpoint trim_start (s : string) : string :=
  match s with
  | String c r => if is_white_space c then trim_start r else s
  | EmptyString => s
  end.

(** Value of a character as a digit: [0-9], then [a-z] or [A-Z] for 10
    to 35. *)
Definition digit_value (c : ascii) : option Z :=
  let n := Z.of_nat (nat_of_ascii c) in
  if andb (48 <=? n) (n <=? 57) then Some (n - 48)
  else if andb (97 <=? n) (n <=? 122) then Some (n - 87)
  else if andb (65 <=? n) (n <=? 90) then Some (n - 55)
  else None.

(** The integer written by the longest prefix of digits of the radix;
    [acc] is [None] until a digit has been read. *)
Fixpoint parse_digits (radix : Z) (s : string) (acc : option Z) : option Z :=
  match s with
  | String c r =>
      match digit_value c with
      | Some d =>
          if d <? radix
          then parse_digits radix r (Some (default 0 acc * radix + d))
          else acc
      | None => acc
      end
  | EmptyString => acc
  end.

Definition has_hex_prefix (s : string) : bool :=
  match s with
  | String "0" (String "x" _) | String "0" (String "X" _) => true
  | _ => false
  end.

(** [parseInt(input, radix)]: the input converted to a string, leading
    white space and one sign skipped, then the longest run of digits of
    the radix; NaN when there is none. A [0x] prefix is skipped for the
    radices 0 (unspecified) and 16. The digits are read exactly and the
    integer is rounded to a Number once. *)
Definition parseInt (input : value) (radix : Z) : number :=
  let s := trim_start (to_string input) in
  let '(neg, s) :=
    match s with
    | String "-" r => (true, r)
    | String "+" r => (false, r)
    | _ => (false, s)
    end in
  if andb (negb (radix =? 0)) (orb (radix <? 2) (36 <? radix)) then NaN
  else
    let strip := andb (orb (radix =? 0) (radix =? 16)) (has_hex_prefix s) in
    let r := if strip then 16 else if radix =? 0 then 10 else radix in
    let s := if strip then String.substring 2 (String.length s - 2) s else s in
    match parse_digits r s None with
    | None => NaN
    | Some m => round_double (if neg then - m else m)
    end.

End JS.

(* ================================================================== *)
(** ** DOM nodes, exceptions and the monad of the component            *)
(* ================================================================== *)

Module DOM.
Import JS.

(** A reference to a DOM element. *)
Definition node := nat.

(** What the component can see of an element: the properties it reads by
    name ([offsetHeight], [scrollWidth], ...), the inline style
    declaration [elem.style] (the last value assigned to each property)
    and the computed style. The style maps are keyed by the camel-case
    property name the source uses. *)
Record Element := mkElement {
  fields : gmap string value;
  style : gmap string value;
  computed : gmap string string;
}.

Definition with_style (e : Element) (name : string) (v : value) : Element :=
  mkElement (fields e) (<[name := v]> (style e)) (computed e).

(** The accesses to the DOM, in the order they happen. *)
Inductive event :=
| EvGet (n : node) (name : string)
| EvCss (n : node) (name : string)
| EvStyleSet (n : node) (name : string) (v : value).

(** The world: the state of the element behind every reference, and the
    accesses made so far. *)
Record World := mkWorld {
  dom : node → Element;
  trace : list event;
}.

Inductive exn :=
| TypeError
| Thrown (v : value).

Inductive outcome (A : Type) :=
| Ok (a : A)
| Throw (e : exn).
Arguments Ok {A} a.
Arguments Throw {A} e.

(** A computation runs in a world, changes it, and returns or throws. *)
Definition M (A : Type) : Type := World → World * outcome A.

#[export] Instance M_ret : MRet M := λ A a w, (w, Ok a).

#[export] Instance M_bind : MBind M := λ A B f m w,
  let '(w', r) := m w in
  match r with
  | Ok a => f a w'
  | Throw e => (w', Throw e)
  end.

Definition throw {A} (e : exn) : M A := λ w, (w, Throw e).

Definition log (ev : event) : M unit :=
  λ w, (mkWorld (dom w) (trace w ++ [ev]), Ok tt).

Definition gets {A} (f : World → A) : M A := λ w, (w, Ok (f w)).

(** An argument of a function: a primitive value or a DOM node. *)
Inductive arg :=
| AVal (v : value)
| ANode (n : node).

(** A function value: called with its arguments, it returns a primitive
    value or throws. *)
Definition func : Type := list arg → M value.

(** The value of a property of a props object. *)
Inductive pvalue :=
| PVal (v : value)
| PFunc (f : func).

Definition argument (args : list arg) (i : nat) : arg :=
  default (AVal VUndefined) (args !! i).

(** [f(args)]: calling what is not a function is a TypeError. *)
Definition call (f : pvalue) (args : list arg) : M value :=
  match f with
  | PFunc g => g args
  | PVal _ => throw TypeError
  end.

(** [elem[name]]. Reading a property of [undefined] or [null] is a
    TypeError; a property an element or a primitive does not have is
    [undefined]. *)
Definition get (elem : arg) (name : string) : M value :=
  match elem with
  | ANode n =>
      log (EvGet n name);;
      gets (λ w, default VUndefined (fields (dom w n) !! name))
  | AVal VUndefined | AVal VNull => throw TypeError
  | AVal _ => mret VUndefined
  end.

(** [elem.style], the object of the left-hand side [elem.style[...]] of
    an assignment; it is evaluated before the right-hand side. Reading
    [style] of [undefined] or [null] is a TypeError at once; a node has a
    style object; any other primitive has no such property, so the object
    is [undefined] ([None]) and nothing fails yet. *)
Definition style_of (elem : arg) : M (option node) :=
  match elem with
  | ANode n => mret (Some n)
  | AVal VUndefined | AVal VNull => throw TypeError
  | AVal _ => mret None
  end.

(** [style[name] = v] on the style object of node [n]. *)
Definition style_set (n : node) (name : string) (v : value) : M unit :=
  λ w, (mkWorld (<[n := with_style (dom w n) name v]> (dom w))
                (trace w ++ [EvStyleSet n name v]), Ok tt).

(** The assignment itself, made after the right-hand side is evaluated:
    setting a property of [undefined] is a TypeError. *)
Definition assign (st : option node) (name : string) (v : value) : M unit :=
  match st with
  | Some n => style_set n name v
  | None => throw TypeError
  end.

(** What the style getter of dom-helpers returns for a property: the
    inline value when it is truthy, and the computed value otherwise
    ([node.style[property] || getComputedStyle(node).getPropertyValue(property)];
    a property without computed value reads as the empty string). *)
Definition css_value (e : Element) (property : string) : value :=
  let inline := default VUndefined (style e !! property) in
  if to_boolean inline then inline
  else VStr (default EmptyString (computed e !! property)).

(** [css(node, property)] of dom-helpers/style, read form. *)
Definition css (elem : arg) (property : string) : M value :=
  match elem with
  | ANode n =>
      log (EvCss n property);;
      gets (λ w, css_value (dom w n) property)
  | AVal _ => throw TypeError
  end.

End DOM.

(* ================================================================== *)
(** ** Collapse.js                                                     *)
(* ================================================================== *)

Module Collapse.
Import JS DOM.

(** [this.props], a JavaScript object. *)
Abbreviation Props := (gmap string pvalue).

(** [props.name]: a missing property reads as [undefined]. *)
Definition prop (props : Props) (name : string) : pvalue :=
  default (PVal VUndefined) (props !! name).

Definition MARGINS : gmap string (string * string) :=
  <["height" := ("marginTop", "marginBottom")]>
  (<["width" := ("marginLeft", "marginRight")]> ∅).

(** [MARGINS[dimension]]: the key is the dimension converted to a string;
    a node is no key of the table. *)
Definition margins_of (dimension : arg) : option (string * string) :=
  match dimension with
  | AVal v => MARGINS !! to_string v
  | ANode _ => None
  end.

Definition to_upper (c : ascii) : ascii :=
  let n := nat_of_ascii c in
  if andb (97 <=? n)%nat (n <=? 122)%nat then ascii_of_nat (n - 32) else c.

(** Modelled from the spec: [./utils/capitalize] is not among the sources.
    The spec reads the offset extent of axis [height] from [offsetHeight]
    and its scroll extent from [scrollHeight], so [capitalize] turns the
    first character of a string into upper case; what is not a string has
    no characters to take, which is a TypeError. *)
Definition capitalize (s : arg) : M string :=
  match s with
  | AVal (VStr (String c r)) => mret (String (to_upper c) r)
  | AVal (VStr EmptyString) => mret EmptyString
  | _ => throw TypeError
  end.

(** [function triggerBrowserReflow(node) { node.offsetHeight; }] *)
Definition triggerBrowserReflow (node : arg) : M value :=
  get node "offsetHeight";; mret VUndefined.

(** [function getDimensionValue(dimension, elem)] *)
Definition getDimensionValue (dimension elem : arg) : M value :=
  cap ← capitalize dimension;
  value ← get elem ("offset" +:+ cap);
  match margins_of dimension with
  | None => throw TypeError
  | Some margins =>
      m0 ← css elem (margins.1);
      let sum := js_add value (VNum (parseInt m0 10)) in
      m1 ← css elem (margins.2);
      mret (js_add sum (VNum (parseInt m1 10)))
  end.

(** [const defaultProps = { ... }] *)
Definition defaultProps : Props :=
  <["in" := PVal (VBool false)]>
  (<["timeout" := PVal (VNum (Fin 300))]>
  (<["mountOnEnter" := PVal (VBool false)]>
  (<["unmountOnExit" := PVal (VBool false)]>
  (<["transitionAppear" := PVal (VBool false)]>
  (<["dimension" := PVal (VStr "height")]>
  (<["getDimensionValue" :=
       PFunc (λ args, getDimensionValue (argument args 0) (argument args 1))]>
   ∅)))))).

Definition is_undefined (p : pvalue) : bool :=
  match p with
  | PVal VUndefined => true
  | _ => false
  end.

(** How React builds [this.props] from the props given to the element: a
    default takes the place of a prop that is missing or [undefined]. *)
Definition resolveDefaultProps (config : Props) : Props :=
  union_with (λ given dflt, Some (if is_undefined given then dflt else given))
             config defaultProps.

Section Component.

(** [this.props] at the time a method runs. *)
Variable props : Props.

(** [_dimension()] *)
Definition _dimension : M value :=
  match prop props "dimension" with
  | PFunc f => f []
  | PVal v => mret v
  end.

(** [_getScrollDimensionValue(elem, dimension)] *)
Definition _getScrollDimensionValue (elem : arg) (dimension : value) : M string :=
  cap ← capitalize (AVal dimension);
  v ← get elem ("scroll" +:+ cap);
  mret (to_string v +:+ "px").

(** [handleEnter(elem)] *)
Definition handleEnter (elem : arg) : M value :=
  dimension ← _dimension;
  st ← style_of elem;
  assign st (to_string dimension) (VStr "0");;
  mret VUndefined.

(** [handleEntered(elem)] *)
Definition handleEntered (elem : arg) : M value :=
  dimension ← _dimension;
  st ← style_of elem;
  assign st (to_string dimension) VNull;;
  mret VUndefined.

(** [handleEntering(elem)] *)
Definition handleEntering (elem : arg) : M value :=
  dimension ← _dimension;
  st ← style_of elem;
  extent ← _getScrollDimensionValue elem dimension;
  assign st (to_string dimension) (VStr extent);;
  mret VUndefined.

(** [handleExit(elem)] *)
Definition handleExit (elem : arg) : M value :=
  dimension ← _dimension;
  st ← style_of elem;
  extent ← call (prop props "getDimensionValue") [AVal dimension; elem];
  assign st (to_string dimension) (VStr (to_string extent +:+ "px"));;
  triggerBrowserReflow elem.

(** [handleExiting(elem)] *)
Definition handleExiting (elem : arg) : M value :=
  dimension ← _dimension;
  st ← style_of elem;
  assign st (to_string dimension) (VStr "0");;
  mret VUndefined.

(** A method used as a callback: it is called with the arguments the
    delegate passes and takes the first as [elem]. *)
Definition bound (method : arg → M value) : func :=
  λ args, method (argument args 0).

End Component.

(** Modelled from the spec: [./utils/createChainedFunction] is not among
    the sources. By the spec a chained callback is an ordered pair of an
    internal handler and an optional external handler, invoked in
    sequence with the same arguments; an absent external handler is a
    no-op continuation. *)
Definition createChainedFunction (internal : func) (external : option func) : func :=
  λ args,
    internal args;;
    match external with
    | Some f => f args;; mret VUndefined
    | None => mret VUndefined
    end.

(** The optional handler held by a prop of type [PropTypes.func]: a
    function, or nothing. *)
Definition handler (p : pvalue) : option func :=
  match p with
  | PFunc f => Some f
  | PVal _ => None
  end.

(** ToBoolean of a prop; a function is truthy. *)
Definition truthy (p : pvalue) : bool :=
  match p with
  | PVal v => to_boolean v
  | PFunc _ => true
  end.

(** [classNames(className, classes)] of the classnames package, for a
    [className] prop and the object [{ width: w }]: the class name when
    it is a non-empty string or a non-zero number, then the key [width]
    when its flag is true, joined by a space. *)
Definition classNames (className : pvalue) (width : bool) : string :=
  let own :=
    match className with
    | PVal (VStr s) => if to_boolean (VStr s) then [s] else []
    | PVal (VNum n) => if to_boolean (VNum n) then [number_to_string n] else []
    | _ => []
    end in
  String.concat " " (own ++ (if width then ["width"%string] else [])).

(** The props [render] takes out of [this.props] by destructuring. *)
Definition destructured : list string :=
  ["onEnter"; "onEntering"; "onEntered"; "onExit"; "onExiting"; "className"]%string.

(** [render()]: the props of the [<Transition>] element it returns. *)
Definition render (this_props : Props) : M Props :=
  let onEnter := prop this_props "onEnter" in
  let onEntering := prop this_props "onEntering" in
  let onEntered := prop this_props "onEntered" in
  let onExit := prop this_props "onExit" in
  let onExiting := prop this_props "onExiting" in
  let className := prop this_props "className" in
  let props := foldr delete this_props destructured in
  let props := delete "dimension" props in
  let props := delete "getDimensionValue" props in
  let handleEnter' :=
    createChainedFunction (bound (handleEnter this_props)) (handler onEnter) in
  let handleEntering' :=
    createChainedFunction (bound (handleEntering this_props)) (handler onEntering) in
  let handleEntered' :=
    createChainedFunction (bound (handleEntered this_props)) (handler onEntered) in
  let handleExit' :=
    createChainedFunction (bound (handleExit this_props)) (handler onExit) in
  let handleExiting' :=
    createChainedFunction (bound (handleExiting this_props)) (handler onExiting) in
  dimension ← _dimension this_props;
  let width := strict_equals dimension (VStr "width") in
  mret
    (<["onExiting" := PFunc handleExiting']>
    (<["onExit" := PFunc handleExit']>
    (<["onEntered" := PFunc handleEntered']>
    (<["onEntering" := PFunc handleEntering']>
    (<["onEnter" := PFunc handleEnter']>
    (<["enteringClassName" := PVal (VStr "collapsing")]>
    (<["enteredClassName" := PVal (VStr "collapse in")]>
    (<["exitingClassName" := PVal (VStr "collapsing")]>
    (<["exitedClassName" := PVal (VStr "collapse")]>
    (<["className" := PVal (VStr (classNames className width))]>
    (<["aria-expanded" :=
         if truthy (prop props "role") then prop props "in" else PVal VNull]>
     props))))))))))).

End Collapse.

(* ================================================================== *)
(** ** Vocabulary of the specification                                 *)
(* ================================================================== *)

Module Spec.
Import JS DOM Collapse.

(** The two axes a collapse can animate. *)
Inductive axis := Height | Width.

Definition axis_name (a : axis) : string :=
  match a with Height => "height" | Width => "width" end.

(** The laid-out box size along the axis. *)
Definition offset_property (a : axis) : string :=
  match a with Height => "offsetHeight" | Width => "offsetWidth" end.

(** The full scrollable extent along the axis. *)
Definition scroll_property (a : axis) : string :=
  match a with Height => "scrollHeight" | Width => "scrollWidth" end.

(** The margins on the leading and on the trailing side of the axis. *)
Definition leading_margin (a : axis) : string :=
  match a with Height => "marginTop" | Width => "marginLeft" end.

Definition trailing_margin (a : axis) : string :=
  match a with Height => "marginBottom" | Width => "marginRight" end.

(** The five phases that have an internal handler. *)
Inductive phase := Enter | Entering | Entered | Exit | Exiting.

Definition callback_name (p : phase) : string :=
  match p with
  | Enter => "onEnter"
  | Entering => "onEntering"
  | Entered => "onEntered"
  | Exit => "onExit"
  | Exiting => "onExiting"
  end.

Definition internal (p : phase) : Props → arg → M value :=
  match p with
  | Enter => handleEnter
  | Entering => handleEntering
  | Entered => handleEntered
  | Exit => handleExit
  | Exiting => handleExiting
  end.

(** Integers on which Number arithmetic is exact. *)
Definition safe (z : Z) : Prop := Z.abs z < two53.

(** A pixel string. *)
Definition px (z : Z) : string := pretty z +:+ "px".

(** The inline style of a node in a world. *)
Definition style_at (w : World) (n : node) (name : string) : option value :=
  style (dom w n) !! name.

(** A margin value that does not start with an integer. *)
Definition no_leading_integer (v : value) : Prop := parseInt v 10 = NaN.

(** The world after [elem.style[name] = v] and after reading [elem[name]]. *)
Definition written (n : node) (name : string) (v : value) (w : World) : World :=
  mkWorld (<[n := with_style (dom w n) name v]> (dom w))
          (trace w ++ [EvStyleSet n name v]).

Definition read (n : node) (name : string) (w : World) : World :=
  mkWorld (dom w) (trace w ++ [EvGet n name]).

(** An access that, if it writes an inline style, writes the given one. *)
Definition writes_only (name : string) (ev : event) : Prop :=
  match ev with
  | EvStyleSet _ key _ => key = name
  | _ => True
  end.

(** A prop the caller left out, or gave as [undefined] or [null]. *)
Definition omitted (props : Props) (name : string) : Prop :=
  props !! name = None
  ∨ props !! name = Some (PVal VUndefined)
  ∨ props !! name = Some (PVal VNull).

(** The props [render] consumes, the callbacks it replaces by chained
    ones, and the props it sets itself on the delegate. *)
Definition consumed : list string :=
  ["dimension"; "getDimensionValue"]%string.

Definition chained : list string :=
  ["onEnter"; "onEntering"; "onEntered"; "onExit"; "onExiting"]%string.

Definition set_by_component : list string :=
  ["aria-expanded"; "className"; "exitedClassName"; "exitingClassName";
   "enteredClassName"; "enteringClassName"]%string.

(** The names every object literal answers to besides its own keys,
    through [Object.prototype]; [MARGINS[name]] is not [undefined] for
    them, so they are kept apart from the dimensions that have no entry. *)
Definition inherited_names : list string :=
  ["constructor"; "hasOwnProperty"; "isPrototypeOf"; "propertyIsEnumerable";
   "toLocaleString"; "toString"; "valueOf"; "__proto__";
   "__defineGetter__"; "__defineSetter__"; "__lookupGetter__";
   "__lookupSetter__"]%string.

(** A character that continues a decimal integer. *)
Definition decimal_digit (c : ascii) : bool :=
  match digit_value c with
  | Some d => d <? 10
  | None => false
  end.

(** What may follow the integer at the start of a CSS length: nothing, or
    text that starts with something else than a digit (a unit, a decimal
    point). *)
Definition no_digit_ahead (s : string) : Prop :=
  match s with
  | String c _ => decimal_digit c = false
  | EmptyString => True
  end.

(** A string without the sign it may start with. *)
Definition after_sign (s : string) : string :=
  match s with
  | String "-" r => r
  | String "+" r => r
  | _ => s
  end.

Definition starts_with_minus (s : string) : bool :=
  match s with
  | String "-" _ => true
  | _ => false
  end.

(** A value whose text does not start with an integer: after white space
    and one optional sign there is nothing, or something else than a
    digit (['auto'], ['px'], the empty string, [undefined]). *)
Definition lacks_integer (v : value) : Prop :=
  no_digit_ahead (after_sign (trim_start (to_string v))).


End Spec.

(* ================================================================== *)
(** ** The scenarios of the specification                              *)
(* ================================================================== *)

Module Scenario.
Import JS DOM Collapse Spec.

(** The element of the scenarios: [offsetHeight] 40, [marginTop] 4 and
    [marginBottom] 6 pixels. *)
Definition panel : Element :=
  mkElement
    (<["offsetHeight" := VNum (Fin 40)]>
     (<["offsetWidth" := VNum (Fin 200)]>
     (<["scrollHeight" := VNum (Fin 72)]>
     (<["scrollWidth" := VNum (Fin 230)]> ∅))))
    ∅
    (<["marginTop" := "4px"%string]>
     (<["marginBottom" := "6px"%string]>
     (<["marginLeft" := "0px"%string]>
     (<["marginRight" := "0px"%string]> ∅)))).

(** The same element with [margin-top: auto] in its style attribute. *)
Definition centred : Element :=
  mkElement (fields panel) (<["marginTop" := VStr "auto"]> ∅) (computed panel).

Definition page : World := mkWorld (λ _, panel) [].
Definition centred_page : World := mkWorld (λ _, centred) [].

(** [<Collapse>], [<Collapse dimension="width">]. *)
Definition plain : Props := resolveDefaultProps ∅.
Definition sideways : Props :=
  resolveDefaultProps (<["dimension" := PVal (VStr "width")]> ∅).

(** A dimension function whose answer depends on the page: [height] as
    long as nothing has been accessed, [width] afterwards. *)
Definition by_history : func :=
  λ _ w, (w, Ok (VStr (match trace w with [] => "height" | _ => "width" end))).

(** [<Collapse dimension={by_history}>] *)
Definition responsive : Props :=
  resolveDefaultProps (<["dimension" := PFunc by_history]> ∅).

(** [<Collapse dimension="width" className="panel">] *)
Definition sideways_panel : Props :=
  resolveDefaultProps
    (<["className" := PVal (VStr "panel")]>
     (<["dimension" := PVal (VStr "width")]> ∅)).

(** [<Collapse in>] with the empty string as [role]. *)
Definition empty_role : Props :=
  resolveDefaultProps
    (<["role" := PVal (VStr EmptyString)]> (<["in" := PVal (VBool true)]> ∅)).

(** [<Collapse in role="tabpanel">] *)
Definition tab_panel : Props :=
  resolveDefaultProps
    (<["role" := PVal (VStr "tabpanel")]> (<["in" := PVal (VBool true)]> ∅)).

(** A user callback that marks the node it is given. *)
Definition mark : func :=
  λ args,
    match argument args 0 with
    | ANode n => style_set n "outline" (VStr "1px solid");; mret VUndefined
    | AVal _ => mret VUndefined
    end.

(** [<Collapse onEnter={mark}>] *)
Definition marked : Props := resolveDefaultProps (<["onEnter" := PFunc mark]> ∅).

(** An element whose margins are not whole pixels: [margin-top: 4.75px]
    and [margin-bottom: -6.5px]. *)
Definition uneven : Element :=
  mkElement (fields panel) ∅
    (<["marginTop" := "4.75px"%string]>
     (<["marginBottom" := "-6.5px"%string]> ∅)).

Definition uneven_page : World := mkWorld (λ _, uneven) [].

(** A graphic: it has margins but no [offsetHeight]. *)
Definition graphic : Element :=
  mkElement ∅ ∅ (computed panel).

Definition graphic_page : World := mkWorld (λ _, graphic) [].

(** [<Collapse getDimensionValue={null}>] *)
Definition without_calculator : Props :=
  resolveDefaultProps (<["getDimensionValue" := PVal VNull]> ∅).

(** [<Collapse dimension="top">] *)
Definition misdirected : Props :=
  resolveDefaultProps (<["dimension" := PVal (VStr "top")]> ∅).

(** A dimension function that fails. *)
Definition failing : func := λ _, throw (Thrown (VStr "no viewport")).

(** [<Collapse dimension={failing}>] *)
Definition unresolved : Props :=
  resolveDefaultProps (<["dimension" := PFunc failing]> ∅).

(** The props of the [<Transition>] that [render] returns on the page. *)
Definition rendered (this_props : Props) : Props :=
  match render this_props page with
  | (_, Ok delegate) => delegate
  | (_, Throw _) => ∅
  end.

End Scenario.

(* ================================================================== *)
(** ** Running computations                                            *)
(* ================================================================== *)

Section Running.
Import JS DOM Collapse Spec.

(** Unfold the monad and the DOM primitives, and track the world. *)
Ltac run_monad :=
  cbv beta iota zeta delta
    [mbind M_bind mret M_ret throw log gets get css style_of style_set
     assign];
  cbn [dom trace].

Lemma run_bind {A B} (m : M A) (f : A → M B) (w : World) :
  (m ≫= f) w =
  match m w with
  | (w', Ok a) => f a w'
  | (w', Throw e) => (w', Throw e)
  end.
Proof. unfold mbind, M_bind. destruct (m w) as [w' [a|e]]; reflexivity. Qed.

Lemma run_bind_ok {A B} (m : M A) (f : A → M B) (w w' : World) (a : A) :
  m w = (w', Ok a) → (m ≫= f) w = f a w'.
Proof. intros H. rewrite run_bind, H. reflexivity. Qed.

Lemma run_bind_throw {A B} (m : M A) (f : A → M B) (w w' : World) (e : exn) :
  m w = (w', Throw e) → (m ≫= f) w = (w', Throw e).
Proof. intros H. rewrite run_bind, H. reflexivity. Qed.

Lemma run_ret {A B} (a : A) (f : A → M B) (w : World) :
  (mret a ≫= f) w = f a w.
Proof. reflexivity. Qed.

Lemma round_double_safe (z : Z) : safe z → round_double z = Fin z.
Proof.
  unfold safe, round_double. intros H.
  destruct (Z.ltb_spec (Z.abs z) two53) as [_|Hge]; [reflexivity | lia].
Qed.

Lemma number_to_string_safe (z : Z) :
  safe z → number_to_string (Fin z) = pretty z.
Proof.
  unfold safe, number_to_string. intros H.
  destruct (Z.ltb_spec (Z.abs z) two53) as [_|Hge]; [reflexivity | lia].
Qed.

Lemma capitalize_axis (a : axis) :
  capitalize (AVal (VStr (axis_name a))) =
  mret (match a with Height => "Height" | Width => "Width" end)%string.
Proof. destruct a; reflexivity. Qed.

Lemma offset_property_capitalized (a : axis) :
  offset_property a =
  "offset" +:+ (match a with Height => "Height" | Width => "Width" end)%string.
Proof. destruct a; reflexivity. Qed.

Lemma scroll_property_capitalized (a : axis) :
  scroll_property a =
  "scroll" +:+ (match a with Height => "Height" | Width => "Width" end)%string.
Proof. destruct a; reflexivity. Qed.

Lemma margins_of_axis (a : axis) :
  margins_of (AVal (VStr (axis_name a))) =
  Some (leading_margin a, trailing_margin a).
Proof. destruct a; vm_compute; reflexivity. Qed.

(** The calculator on a node, for a dimension that has margins: three
    reads and the sum; the element is left as it was. *)
Lemma getDimensionValue_run (d : arg) (cap l t : string) (n : node) (w : World) :
  capitalize d = mret cap →
  margins_of d = Some (l, t) →
  getDimensionValue d (ANode n) w =
  (mkWorld (dom w)
           (trace w ++ [EvGet n ("offset" +:+ cap); EvCss n l; EvCss n t]),
   Ok (js_add
         (js_add (default VUndefined (fields (dom w n) !! ("offset" +:+ cap)))
                 (VNum (parseInt (css_value (dom w n) l) 10)))
         (VNum (parseInt (css_value (dom w n) t) 10)))).
Proof.
  intros Hcap Hm. unfold getDimensionValue. rewrite Hcap, Hm.
  run_monad. rewrite <- !app_assoc. reflexivity.
Qed.

End Running.

(* ================================================================== *)
(** ** The phase handlers, run                                         *)
(* ================================================================== *)

Section Handlers.
Import JS DOM Collapse Spec.

Lemma style_at_written (n : node) (name : string) (v : value) (w : World) :
  style_at (written n name v w) n name = Some v.
Proof.
  unfold style_at, written. cbn [dom].
  rewrite fn_lookup_insert. unfold with_style. cbn [style].
  apply lookup_insert_eq.
Qed.

Lemma style_at_written_other (n m : node) (name key : string) (v : value) (w : World) :
  key ≠ name →
  style_at (written n name v w) m key = style_at w m key.
Proof.
  intros Hne. unfold style_at, written. cbn [dom].
  destruct (decide (n = m)) as [->|Hnm].
  - rewrite fn_lookup_insert. unfold with_style. cbn [style].
    apply lookup_insert_ne. congruence.
  - rewrite fn_lookup_insert_ne by assumption. reflexivity.
Qed.

Lemma style_at_read (n m : node) (name key : string) (w : World) :
  style_at (read n name w) m key = style_at w m key.
Proof. reflexivity. Qed.

Lemma fields_written (n m : node) (name : string) (v : value) (w : World) :
  fields (dom (written n name v w) m) = fields (dom w m).
Proof.
  unfold written. cbn [dom].
  destruct (decide (n = m)) as [->|Hnm].
  - rewrite fn_lookup_insert. reflexivity.
  - rewrite fn_lookup_insert_ne by assumption. reflexivity.
Qed.

Variable props : Props.

(** A handler starts by resolving the dimension: when that throws, so
    does the handler, in the world the resolution left. *)
Lemma handler_dimension_throws (p : phase) (elem : arg) (w w1 : World) (e : exn) :
  _dimension props w = (w1, Throw e) →
  internal p props elem w = (w1, Throw e).
Proof.
  intros H. destruct p; cbn [internal];
    [unfold handleEnter | unfold handleEntering | unfold handleEntered
    | unfold handleExit | unfold handleExiting];
    apply run_bind_throw; exact H.
Qed.

Lemma handleEnter_run (n : node) (w w1 : World) (d : value) :
  _dimension props w = (w1, Ok d) →
  handleEnter props (ANode n) w =
  (written n (to_string d) (VStr "0") w1, Ok VUndefined).
Proof.
  intros H. unfold handleEnter. rewrite (run_bind_ok _ _ _ _ _ H). reflexivity.
Qed.

Lemma handleExiting_run (n : node) (w w1 : World) (d : value) :
  _dimension props w = (w1, Ok d) →
  handleExiting props (ANode n) w =
  (written n (to_string d) (VStr "0") w1, Ok VUndefined).
Proof.
  intros H. unfold handleExiting. rewrite (run_bind_ok _ _ _ _ _ H). reflexivity.
Qed.

Lemma handleEntered_run (n : node) (w w1 : World) (d : value) :
  _dimension props w = (w1, Ok d) →
  handleEntered props (ANode n) w =
  (written n (to_string d) VNull w1, Ok VUndefined).
Proof.
  intros H. unfold handleEntered. rewrite (run_bind_ok _ _ _ _ _ H). reflexivity.
Qed.

Lemma handleEntering_run (n : node) (w w1 : World) (d : value) (cap : string) :
  _dimension props w = (w1, Ok d) →
  capitalize (AVal d) = mret cap →
  handleEntering props (ANode n) w =
  (written n (to_string d)
     (VStr (to_string (default VUndefined (fields (dom w1 n) !! ("scroll" +:+ cap)))
            +:+ "px"))
     (read n ("scroll" +:+ cap) w1),
   Ok VUndefined).
Proof.
  intros H Hcap. unfold handleEntering. rewrite (run_bind_ok _ _ _ _ _ H).
  unfold _getScrollDimensionValue. rewrite Hcap. reflexivity.
Qed.

Lemma handleExit_run (n : node) (w w1 w2 : World) (d x : value) :
  _dimension props w = (w1, Ok d) →
  call (prop props "getDimensionValue") [AVal d; ANode n] w1 = (w2, Ok x) →
  handleExit props (ANode n) w =
  (read n "offsetHeight"
     (written n (to_string d) (VStr (to_string x +:+ "px")) w2),
   Ok VUndefined).
Proof.
  intros H Hx. unfold handleExit. rewrite (run_bind_ok _ _ _ _ _ H).
  cbn [style_of]. rewrite run_ret.
  rewrite (run_bind_ok _ _ _ _ _ Hx). reflexivity.
Qed.

Lemma handleExit_calculator_throws (n : node) (w w1 w2 : World) (d : value) (e : exn) :
  _dimension props w = (w1, Ok d) →
  call (prop props "getDimensionValue") [AVal d; ANode n] w1 = (w2, Throw e) →
  handleExit props (ANode n) w = (w2, Throw e).
Proof.
  intros H Hx. unfold handleExit. rewrite (run_bind_ok _ _ _ _ _ H).
  cbn [style_of]. rewrite run_ret.
  rewrite (run_bind_throw _ _ _ _ _ Hx). reflexivity.
Qed.

(** A handler given [undefined] or [null] throws a TypeError as soon as
    the dimension is resolved: nothing is written and nothing else is
    called. For any other primitive the right-hand side is evaluated
    first; in the four handlers whose right-hand side has no effect the
    result is the same. *)
Lemma handler_not_a_node (p : phase) (v : value) (w w1 : World) (d : value) :
  _dimension props w = (w1, Ok d) →
  p ≠ Exit ∨ v = VUndefined ∨ v = VNull →
  internal p props (AVal v) w = (w1, Throw TypeError).
Proof.
  intros H Hp. destruct p; cbn [internal].
  - unfold handleEnter. rewrite (run_bind_ok _ _ _ _ _ H).
    destruct v as [| | b | x | s]; reflexivity.
  - unfold handleEntering. rewrite (run_bind_ok _ _ _ _ _ H).
    unfold _getScrollDimensionValue.
    destruct v as [| | b | x | s]; destruct d as [| | b' | x' | [|c s']];
      reflexivity.
  - unfold handleEntered. rewrite (run_bind_ok _ _ _ _ _ H).
    destruct v as [| | b | x | s]; reflexivity.
  - unfold handleExit. rewrite (run_bind_ok _ _ _ _ _ H).
    destruct Hp as [Hp|[->| ->]]; [congruence | reflexivity | reflexivity].
  - unfold handleExiting. rewrite (run_bind_ok _ _ _ _ _ H).
    destruct v as [| | b | x | s]; reflexivity.
Qed.

(** The exit handler given a primitive other than [undefined] and [null]:
    the calculator is called, and then the assignment fails, unless the
    calculator has thrown already. *)
Lemma handleExit_primitive (v : value) (w w1 w2 : World) (d : value)
    (r : outcome value) :
  _dimension props w = (w1, Ok d) →
  v ≠ VUndefined → v ≠ VNull →
  call (prop props "getDimensionValue") [AVal d; AVal v] w1 = (w2, r) →
  handleExit props (AVal v) w
  = (w2, Throw (match r with Ok _ => TypeError | Throw e => e end)).
Proof.
  intros H Hu Hn Hcall. unfold handleExit. rewrite (run_bind_ok _ _ _ _ _ H).
  assert (Hst : style_of (AVal v) = mret None)
    by (destruct v as [| | b | x | s]; congruence || reflexivity).
  rewrite Hst, run_ret, run_bind, Hcall. destruct r; reflexivity.
Qed.

End Handlers.

(* ================================================================== *)
(** ** Margins as CSS lengths                                          *)
(* ================================================================== *)

Section Lengths.
Import JS DOM Collapse Spec Scenario.

Lemma digit_value_pretty_char (y : N) :
  (y < 10)%N → digit_value (pretty_N_char y) = Some (Z.of_N y).
Proof.
  intros Hy.
  assert (y = 0 ∨ y = 1 ∨ y = 2 ∨ y = 3 ∨ y = 4 ∨ y = 5 ∨ y = 6 ∨ y = 7
          ∨ y = 8 ∨ y = 9)%N as H by lia.
  repeat (destruct H as [->|H]; [reflexivity|]). subst y. reflexivity.
Qed.

(** The digits of [x] are put in front of what is already there. *)
Lemma pretty_N_go_app (x : N) (s tail : string) :
  pretty_N_go x s +:+ tail = pretty_N_go x (s +:+ tail).
Proof.
  revert s. induction (N.lt_wf_0 x) as [x _ IH]. intros s.
  destruct (decide (0 < x)%N) as [Hx|Hx].
  - rewrite (pretty_N_go_step x s), (pretty_N_go_step x (s +:+ tail))
      by exact Hx.
    rewrite IH by (apply N.div_lt; [exact Hx | reflexivity]). reflexivity.
  - assert (x = 0%N) as -> by lia. rewrite !pretty_N_go_0. reflexivity.
Qed.

(** The digits of a positive number start with a digit. *)
Lemma pretty_N_go_head (x : N) (s : string) :
  (0 < x)%N →
  ∃ y s', (y < 10)%N ∧ pretty_N_go x s = String (pretty_N_char y) s'.
Proof.
  revert s. induction (N.lt_wf_0 x) as [x _ IH]. intros s Hx.
  rewrite pretty_N_go_step by exact Hx.
  destruct (decide (0 < x `div` 10)%N) as [Hq|Hq].
  - apply IH; [apply N.div_lt; [exact Hx | reflexivity] | exact Hq].
  - apply N.nlt_ge, N.le_0_r in Hq. rewrite Hq, pretty_N_go_0.
    exists (x `mod` 10)%N, s. split; [apply N.mod_lt; discriminate | reflexivity].
Qed.

Lemma parse_digits_digit (y : N) (s : string) (acc : option Z) :
  (y < 10)%N →
  parse_digits 10 (String (pretty_N_char y) s) acc
  = parse_digits 10 s (Some (default 0 acc * 10 + Z.of_N y)).
Proof.
  intros Hy. cbn [parse_digits]. rewrite (digit_value_pretty_char _ Hy).
  destruct (Z.ltb_spec (Z.of_N y) 10) as [_|Hge]; [reflexivity | lia].
Qed.

(** Reading the digits of [x] back gives [x], after what was read before. *)
Lemma parse_digits_pretty_go (x : N) :
  (0 < x)%N →
  ∃ k, 0 ≤ k ∧ ∀ s acc,
    parse_digits 10 (pretty_N_go x s) acc
    = parse_digits 10 s (Some (default 0 acc * 10 ^ k + Z.of_N x)).
Proof.
  induction (N.lt_wf_0 x) as [x _ IH]. intros Hx.
  assert (Hmod : (x `mod` 10 < 10)%N) by (apply N.mod_lt; discriminate).
  destruct (decide (0 < x `div` 10)%N) as [Hq|Hq].
  - destruct (IH (x `div` 10)%N) as (k & Hk & Hgo);
      [apply N.div_lt; [exact Hx | reflexivity] | exact Hq |].
    exists (k + 1). split; [lia|]. intros s acc.
    rewrite pretty_N_go_step by exact Hx.
    rewrite Hgo, (parse_digits_digit _ _ _ Hmod). cbn [default from_option id].
    f_equal. f_equal.
    rewrite Z.pow_add_r, Z.pow_1_r by lia.
    rewrite (N.div_mod x 10) at 3 by discriminate.
    rewrite N2Z.inj_add, N2Z.inj_mul. change (Z.of_N 10) with 10. ring.
  - exists 1. split; [lia|]. intros s acc.
    rewrite pretty_N_go_step by exact Hx.
    assert (Hz : (x `div` 10 = 0)%N) by (apply N.le_0_r, N.nlt_ge, Hq).
    rewrite Hz, pretty_N_go_0.
    rewrite (parse_digits_digit _ _ _ Hmod). f_equal. f_equal.
    rewrite (N.div_mod x 10) at 2 by discriminate. rewrite Hz.
    rewrite Z.pow_1_r. lia.
Qed.

Lemma parse_digits_stop (tail : string) (acc : option Z) :
  no_digit_ahead tail → parse_digits 10 tail acc = acc.
Proof.
  destruct tail as [|c r]; [reflexivity|].
  cbn [no_digit_ahead parse_digits]. unfold decimal_digit.
  destruct (digit_value c) as [d|]; [|reflexivity].
  intros ->. reflexivity.
Qed.

(** [parseInt] on a string that starts with a digit: no white space and
    no sign to skip. *)
Lemma parseInt_digit_head (y : N) (s : string) :
  (y < 10)%N →
  parseInt (VStr (String (pretty_N_char y) s)) 10
  = match parse_digits 10 (String (pretty_N_char y) s) None with
    | None => NaN
    | Some m => round_double m
    end.
Proof.
  intros Hy.
  assert (y = 0 ∨ y = 1 ∨ y = 2 ∨ y = 3 ∨ y = 4 ∨ y = 5 ∨ y = 6 ∨ y = 7
          ∨ y = 8 ∨ y = 9)%N as H by lia.
  repeat (destruct H as [->|H]; [reflexivity|]). subst y. reflexivity.
Qed.

Lemma parseInt_positive (x : positive) (tail : string) :
  no_digit_ahead tail →
  parseInt (VStr (pretty (Zpos x) +:+ tail)) 10 = round_double (Zpos x).
Proof.
  intros Htail.
  change (pretty (Zpos x)) with (pretty_N_go (Npos x) EmptyString).
  rewrite pretty_N_go_app. change (EmptyString +:+ tail) with tail.
  destruct (pretty_N_go_head (Npos x) tail) as (y & s' & Hy & Hhead); [reflexivity|].
  rewrite Hhead, (parseInt_digit_head _ _ Hy), <- Hhead.
  destruct (parse_digits_pretty_go (Npos x)) as (k & _ & Hgo); [reflexivity|].
  rewrite Hgo, (parse_digits_stop _ _ Htail). cbn [default from_option id].
  rewrite Z.mul_0_l, Z.add_0_l. reflexivity.
Qed.

Lemma parseInt_negative (x : positive) (tail : string) :
  no_digit_ahead tail →
  parseInt (VStr (pretty (Zneg x) +:+ tail)) 10 = round_double (Zneg x).
Proof.
  intros Htail.
  change (pretty (Zneg x))
    with (String "-" (pretty_N_go (Npos x) EmptyString)).
  change (String "-" (pretty_N_go (Npos x) EmptyString) +:+ tail)
    with (String "-" (pretty_N_go (Npos x) EmptyString +:+ tail)).
  rewrite pretty_N_go_app. change (EmptyString +:+ tail) with tail.
  destruct (parse_digits_pretty_go (Npos x)) as (k & _ & Hgo); [reflexivity|].
  specialize (Hgo tail None). rewrite (parse_digits_stop _ _ Htail) in Hgo.
  cbn [default from_option id] in Hgo. rewrite Z.mul_0_l, Z.add_0_l in Hgo.
  unfold parseInt. cbn [to_string trim_start is_white_space].
  change (is_white_space "-") with false. cbv iota.
  change (andb (negb (10 =? 0)) (orb (10 <? 2) (36 <? 10))) with false. cbv iota.
  change (orb (10 =? 0) (10 =? 16)) with false. cbn [andb]. cbv iota zeta.
  change (10 =? 0) with false. cbv iota.
  rewrite Hgo. reflexivity.
Qed.

(** A length that starts with the integer [z] parses to [z]. *)
Lemma parseInt_length (z : Z) (tail : string) :
  no_digit_ahead tail → safe z →
  parseInt (VStr (pretty z +:+ tail)) 10 = Fin z.
Proof.
  intros Htail Hz. rewrite <- (round_double_safe _ Hz).
  destruct z as [|x|x].
  - change (pretty 0) with "0"%string.
    change ("0" +:+ tail) with (String (pretty_N_char 0) tail).
    rewrite parseInt_digit_head by reflexivity.
    rewrite parse_digits_digit by reflexivity.
    rewrite (parse_digits_stop _ _ Htail). reflexivity.
  - apply parseInt_positive, Htail.
  - apply parseInt_negative, Htail.
Qed.

Lemma sign_split (s : string) :
  match s with
  | String "-" r => (true, r)
  | String "+" r => (false, r)
  | _ => (false, s)
  end = (starts_with_minus s, after_sign s).
Proof.
  destruct s as [|c r]; [reflexivity|].
  destruct c as [[] [] [] [] [] [] [] []]; reflexivity.
Qed.

(** [parseInt] with radix 10, step by step. *)
Lemma parseInt_10 (v : value) :
  parseInt v 10
  = match parse_digits 10 (after_sign (trim_start (to_string v))) None with
    | None => NaN
    | Some m =>
        round_double
          (if starts_with_minus (trim_start (to_string v)) then - m else m)
    end.
Proof. unfold parseInt. rewrite sign_split. reflexivity. Qed.

(** A value that does not start with an integer parses to NaN. *)
Lemma parseInt_lacks_integer (v : value) :
  lacks_integer v → parseInt v 10 = NaN.
Proof.
  unfold lacks_integer. intros H.
  rewrite parseInt_10, (parse_digits_stop _ _ H). reflexivity.
Qed.

End Lengths.

(* ================================================================== *)
(** ** The dimension-value calculator                                  *)
(* ================================================================== *)

Section Calculator.
Import JS DOM Collapse Spec Scenario.

Lemma default_calculator :
  prop defaultProps "getDimensionValue" =
  PFunc (λ args, getDimensionValue (argument args 0) (argument args 1)).
Proof. reflexivity. Qed.

Lemma calculator_of_props (props : Props) :
  props !! "getDimensionValue" = defaultProps !! "getDimensionValue" →
  prop props "getDimensionValue" =
  PFunc (λ args, getDimensionValue (argument args 0) (argument args 1)).
Proof. intros H. unfold prop. rewrite H. exact default_calculator. Qed.

(** The calculator on an axis: it never throws on a node. *)
Lemma getDimensionValue_axis (a : axis) (n : node) (w : World) :
  getDimensionValue (AVal (VStr (axis_name a))) (ANode n) w =
  (mkWorld (dom w)
     (trace w ++ [EvGet n (offset_property a); EvCss n (leading_margin a);
                  EvCss n (trailing_margin a)]),
   Ok (js_add
         (js_add (default VUndefined (fields (dom w n) !! offset_property a))
                 (VNum (parseInt (css_value (dom w n) (leading_margin a)) 10)))
         (VNum (parseInt (css_value (dom w n) (trailing_margin a)) 10)))).
Proof.
  rewrite offset_property_capitalized.
  apply getDimensionValue_run; [apply capitalize_axis | apply margins_of_axis].
Qed.

Lemma num_add_NaN_r (x : number) : num_add x NaN = NaN.
Proof. destruct x; reflexivity. Qed.

(** C1. For an element with offset extent [E] along the axis and margins
    that parse to the integers [m1] (leading side) and [m2] (trailing
    side), the calculator returns [E + m1 + m2], and the exit handler of a
    component that uses this calculator sets the inline style of the axis
    to that sum as a pixel string. The sums are taken in the range where
    Number addition is exact. *)
Theorem collapse_extent_is_offset_plus_margins
    (a : axis) (props : Props) (n : node) (w : World) (E m1 m2 : Z) :
  fields (dom w n) !! offset_property a = Some (VNum (Fin E)) →
  parseInt (css_value (dom w n) (leading_margin a)) 10 = Fin m1 →
  parseInt (css_value (dom w n) (trailing_margin a)) 10 = Fin m2 →
  safe (E + m1) → safe (E + m1 + m2) →
  _dimension props w = (w, Ok (VStr (axis_name a))) →
  props !! "getDimensionValue" = defaultProps !! "getDimensionValue" →
  (∃ w1, getDimensionValue (AVal (VStr (axis_name a))) (ANode n) w
         = (w1, Ok (VNum (Fin (E + m1 + m2))))
         ∧ dom w1 = dom w) ∧
  (∃ w2, handleExit props (ANode n) w = (w2, Ok VUndefined)
         ∧ style_at w2 n (axis_name a) = Some (VStr (px (E + m1 + m2)))).
Proof.
  intros HE Hm1 Hm2 Hs1 Hs2 Hdim Hcalc.
  assert (Hval :
    getDimensionValue (AVal (VStr (axis_name a))) (ANode n) w =
    (mkWorld (dom w)
       (trace w ++ [EvGet n (offset_property a); EvCss n (leading_margin a);
                    EvCss n (trailing_margin a)]),
     Ok (VNum (Fin (E + m1 + m2))))).
  { rewrite getDimensionValue_axis, HE, Hm1, Hm2.
    cbn [default from_option id js_add to_number num_add].
    rewrite (round_double_safe _ Hs1). cbn [num_add].
    rewrite (round_double_safe _ Hs2). reflexivity. }
  split.
  - eexists. split; [exact Hval | reflexivity].
  - assert (Hcall :
      call (prop props "getDimensionValue")
           [AVal (VStr (axis_name a)); ANode n] w =
      (mkWorld (dom w)
         (trace w ++ [EvGet n (offset_property a); EvCss n (leading_margin a);
                      EvCss n (trailing_margin a)]),
       Ok (VNum (Fin (E + m1 + m2))))).
    { rewrite (calculator_of_props _ Hcalc). exact Hval. }
    rewrite (handleExit_run props n w w _ _ _ Hdim Hcall).
    eexists. split; [reflexivity|].
    rewrite style_at_read. cbn [to_string].
    rewrite (number_to_string_safe _ Hs2). apply style_at_written.
Qed.

(** The scenario of the spec: [offsetHeight] 40 with margins 4 and 6
    gives 50, and the exit handler writes ['50px']. *)
Lemma collapse_extent_is_offset_plus_margins_witness :
  (∃ w1, getDimensionValue (AVal (VStr "height")) (ANode 0%nat) page
         = (w1, Ok (VNum (Fin 50)))
         ∧ dom w1 = dom page) ∧
  (∃ w2, handleExit plain (ANode 0%nat) page = (w2, Ok VUndefined)
         ∧ style_at w2 0%nat "height" = Some (VStr "50px")).
Proof.
  apply (collapse_extent_is_offset_plus_margins Height plain 0%nat page 40 4 6);
    reflexivity.
Defined.

(** C2, as the code has it. A margin whose value does not start with an
    integer (after white space and one optional sign there is no digit:
    ['auto'], or the empty string that an element without inline and
    computed value reads as) is not counted as 0: [parseInt] yields NaN
    for it, and the calculator returns NaN, without throwing. A value
    that starts with an integer and goes on with a unit, such as ['4px'],
    still parses to that integer and counts as it in the sum. *)
Theorem margin_without_integer_gives_NaN
    (a : axis) (n : node) (w : World) (E : Z) :
  fields (dom w n) !! offset_property a = Some (VNum (Fin E)) →
  lacks_integer (css_value (dom w n) (leading_margin a))
  ∨ lacks_integer (css_value (dom w n) (trailing_margin a)) →
  (∃ w1, getDimensionValue (AVal (VStr (axis_name a))) (ANode n) w
         = (w1, Ok (VNum NaN)))
  ∧ (∀ v, lacks_integer v → parseInt v 10 = NaN)
  ∧ (∀ e property, style e !! property = None → computed e !! property = None →
                   lacks_integer (css_value e property))
  ∧ (∀ m rest, safe m → no_digit_ahead rest →
               parseInt (VStr (pretty m +:+ rest)) 10 = Fin m)
  ∧ (∀ n' w' E' m1 m2 rest1 rest2,
       fields (dom w' n') !! offset_property a = Some (VNum (Fin E')) →
       css_value (dom w' n') (leading_margin a) = VStr (pretty m1 +:+ rest1) →
       css_value (dom w' n') (trailing_margin a) = VStr (pretty m2 +:+ rest2) →
       no_digit_ahead rest1 → no_digit_ahead rest2 →
       safe m1 → safe m2 → safe (E' + m1) → safe (E' + m1 + m2) →
       ∃ w1, getDimensionValue (AVal (VStr (axis_name a))) (ANode n') w'
             = (w1, Ok (VNum (Fin (E' + m1 + m2))))).
Proof.
  intros HE Hbad. split; [|split; [|split; [|split]]].
  - rewrite getDimensionValue_axis, HE. eexists. f_equal. f_equal.
    cbn [default from_option id js_add to_number]. f_equal.
    destruct Hbad as [H|H]; rewrite (parseInt_lacks_integer _ H).
    + rewrite num_add_NaN_r. reflexivity.
    + apply num_add_NaN_r.
  - exact parseInt_lacks_integer.
  - intros e property Hs Hc. unfold lacks_integer, css_value.
    rewrite Hs, Hc. exact I.
  - intros m rest Hm Hrest. apply parseInt_length; assumption.
  - intros n' w' E' m1 m2 rest1 rest2 HE' H1 H2 Hr1 Hr2 Hs1 Hs2 Hs3 Hs4.
    rewrite getDimensionValue_axis, HE', H1, H2.
    rewrite (parseInt_length _ _ Hr1 Hs1), (parseInt_length _ _ Hr2 Hs2).
    cbn [default from_option id js_add to_number num_add].
    rewrite (round_double_safe _ Hs3). cbn [num_add].
    rewrite (round_double_safe _ Hs4). eexists. reflexivity.
Qed.

Lemma margin_without_integer_gives_NaN_witness :
  (∃ w1, getDimensionValue (AVal (VStr "height")) (ANode 0%nat) centred_page
         = (w1, Ok (VNum NaN)))
  ∧ (∀ v, lacks_integer v → parseInt v 10 = NaN)
  ∧ (∀ e property, style e !! property = None → computed e !! property = None →
                   lacks_integer (css_value e property))
  ∧ (∀ m rest, safe m → no_digit_ahead rest →
               parseInt (VStr (pretty m +:+ rest)) 10 = Fin m)
  ∧ (∀ n' w' E' m1 m2 rest1 rest2,
       fields (dom w' n') !! offset_property Height = Some (VNum (Fin E')) →
       css_value (dom w' n') (leading_margin Height) = VStr (pretty m1 +:+ rest1) →
       css_value (dom w' n') (trailing_margin Height) = VStr (pretty m2 +:+ rest2) →
       no_digit_ahead rest1 → no_digit_ahead rest2 →
       safe m1 → safe m2 → safe (E' + m1) → safe (E' + m1 + m2) →
       ∃ w1, getDimensionValue (AVal (VStr (axis_name Height))) (ANode n') w'
             = (w1, Ok (VNum (Fin (E' + m1 + m2))))).
Proof.
  apply (margin_without_integer_gives_NaN Height 0%nat centred_page 40);
    [reflexivity | left; reflexivity].
Defined.

(** C2, as stated, fails: with [margin-top: auto] on the element of the
    scenario the margin is not taken as 0. The calculator returns NaN, not
    40 + 0 + 6, and the exit handler writes ['NaNpx']. *)
Lemma malformed_margin_is_not_zero :
  css_value centred "marginTop" = VStr "auto" ∧
  parseInt (VStr "auto") 10 = NaN ∧
  (getDimensionValue (AVal (VStr "height")) (ANode 0%nat) centred_page).2
    = Ok (VNum NaN) ∧
  Ok (VNum NaN) ≠ Ok (VNum (Fin (40 + 0 + 6))) ∧
  style_at (handleExit plain (ANode 0%nat) centred_page).1 0%nat "height"
    = Some (VStr "NaNpx").
Proof.
  repeat split; try (reflexivity). discriminate.
Qed.

End Calculator.

(* ================================================================== *)
(** ** The expand and collapse cycles                                  *)
(* ================================================================== *)

Section Cycles.
Import JS DOM Collapse Spec Scenario.

(** Every way [handleExit] can run: the dimension is resolved; given
    something else than a node the handler throws; given a node the
    calculator is called, and only then come the style write and the
    forced read, which cannot fail. *)
Lemma handleExit_cases (props : Props) (elem : arg) (w w' : World) (r : outcome value) :
  handleExit props elem w = (w', r) →
  (∃ e, _dimension props w = (w', Throw e) ∧ r = Throw e)
  ∨ (∃ w1 d v e, _dimension props w = (w1, Ok d) ∧ elem = AVal v ∧ r = Throw e)
  ∨ (∃ w1 d n e, _dimension props w = (w1, Ok d) ∧ elem = ANode n
       ∧ call (prop props "getDimensionValue") [AVal d; ANode n] w1 = (w', Throw e)
       ∧ r = Throw e)
  ∨ (∃ w1 d n w2 x, _dimension props w = (w1, Ok d) ∧ elem = ANode n
       ∧ call (prop props "getDimensionValue") [AVal d; ANode n] w1 = (w2, Ok x)
       ∧ w' = read n "offsetHeight"
                (written n (to_string d) (VStr (to_string x +:+ "px")) w2)
       ∧ r = Ok VUndefined).
Proof.
  intros H.
  destruct (_dimension props w) as [w1 [d|e]] eqn:Hdim.
  - destruct elem as [v|n].
    + right; left. exists w1, d, v.
      destruct (call (prop props "getDimensionValue") [AVal d; AVal v] w1)
        as [w2 r0] eqn:Hcall.
      assert (Hnull : v = VUndefined ∨ v = VNull →
                handleExit props (AVal v) w = (w1, Throw TypeError)).
      { intros Hv.
        apply (handler_not_a_node props Exit v w w1 d Hdim). right. exact Hv. }
      assert (Hprim : v ≠ VUndefined → v ≠ VNull →
                handleExit props (AVal v) w
                = (w2, Throw (match r0 with Ok _ => TypeError | Throw e => e end)))
        by (intros Hu Hn; apply (handleExit_primitive props v w w1 w2 d r0 Hdim Hu Hn Hcall)).
      destruct v as [| | b | x | s].
      * rewrite Hnull in H by (left; reflexivity). injection H as _ <-. eauto.
      * rewrite Hnull in H by (right; reflexivity). injection H as _ <-. eauto.
      * rewrite Hprim in H by discriminate. injection H as _ <-. eauto.
      * rewrite Hprim in H by discriminate. injection H as _ <-. eauto.
      * rewrite Hprim in H by discriminate. injection H as _ <-. eauto.
    + destruct (call (prop props "getDimensionValue") [AVal d; ANode n] w1)
        as [w2 [x|e]] eqn:Hcall.
      * rewrite (handleExit_run props n _ _ _ _ _ Hdim Hcall) in H.
        injection H as <- <-. right; right; right. eauto 10.
      * rewrite (handleExit_calculator_throws props n _ _ _ _ _ Hdim Hcall) in H.
        injection H as <- <-. right; right; left. eauto 10.
  - pose proof (handler_dimension_throws props Exit elem _ _ _ Hdim) as He.
    cbn [internal] in He. rewrite He in H.
    injection H as <- <-. left. eauto.
Qed.

(** C3. On an expand cycle with axis [d], the enter handler sets the
    inline style of [d] to ['0'], the entering handler then sets it to
    the scroll extent of the element along [d] followed by ['px'], and the
    entered handler then sets it to [null]. *)
Theorem expand_cycle_inline_style
    (a : axis) (props : Props) (n : node) (w : World) (extent : value) :
  (∀ w0, _dimension props w0 = (w0, Ok (VStr (axis_name a)))) →
  fields (dom w n) !! scroll_property a = Some extent →
  ∃ w1 w2 w3,
    handleEnter props (ANode n) w = (w1, Ok VUndefined)
    ∧ style_at w1 n (axis_name a) = Some (VStr "0")
    ∧ handleEntering props (ANode n) w1 = (w2, Ok VUndefined)
    ∧ style_at w2 n (axis_name a) = Some (VStr (to_string extent +:+ "px"))
    ∧ handleEntered props (ANode n) w2 = (w3, Ok VUndefined)
    ∧ style_at w3 n (axis_name a) = Some VNull.
Proof.
  intros Hdim Hext.
  eexists _, _, _. split; [apply handleEnter_run, Hdim|].
  split; [apply style_at_written|].
  split; [apply handleEntering_run; [apply Hdim | apply capitalize_axis]|].
  split.
  - rewrite <- scroll_property_capitalized, fields_written, Hext.
    apply style_at_written.
  - split; [apply handleEntered_run, Hdim | apply style_at_written].
Qed.

(** The scenario of the spec, on an element whose [scrollHeight] is 72. *)
Lemma expand_cycle_inline_style_witness :
  ∃ w1 w2 w3,
    handleEnter plain (ANode 0%nat) page = (w1, Ok VUndefined)
    ∧ style_at w1 0%nat "height" = Some (VStr "0")
    ∧ handleEntering plain (ANode 0%nat) w1 = (w2, Ok VUndefined)
    ∧ style_at w2 0%nat "height" = Some (VStr "72px")
    ∧ handleEntered plain (ANode 0%nat) w2 = (w3, Ok VUndefined)
    ∧ style_at w3 0%nat "height" = Some VNull.
Proof.
  apply (expand_cycle_inline_style Height plain 0%nat page (VNum (Fin 72))).
  - intros w0. reflexivity.
  - reflexivity.
Defined.

(** C4. Once the exit handler has resolved the dimension and computed
    the extent, it writes the inline style and then makes the forced
    layout read, in this order, and returns: the world it leaves is the
    one after the read made in the world after the write, so the style is
    set when the read happens. The forced read of a node never throws. *)
Theorem exit_writes_style_before_forced_read
    (props : Props) (n : node) (w w1 w2 : World) (d x : value) :
  _dimension props w = (w1, Ok d) →
  call (prop props "getDimensionValue") [AVal d; ANode n] w1 = (w2, Ok x) →
  (∃ w3, handleExit props (ANode n) w = (w3, Ok VUndefined)
         ∧ w3 = read n "offsetHeight"
                  (written n (to_string d) (VStr (to_string x +:+ "px")) w2)
         ∧ style_at w3 n (to_string d) = Some (VStr (to_string x +:+ "px"))
         ∧ trace w3 =
           trace w2 ++ [EvStyleSet n (to_string d) (VStr (to_string x +:+ "px"));
                        EvGet n "offsetHeight"])
  ∧ (∀ m w0, triggerBrowserReflow (ANode m) w0
             = (read m "offsetHeight" w0, Ok VUndefined)).
Proof.
  intros Hdim Hcall. split.
  - rewrite (handleExit_run props n _ _ _ _ _ Hdim Hcall).
    eexists. split; [reflexivity|]. split; [reflexivity|].
    split; [rewrite style_at_read; apply style_at_written|].
    unfold read, written. cbn [trace]. rewrite <- app_assoc. reflexivity.
  - intros m w0. reflexivity.
Qed.

Lemma exit_writes_style_before_forced_read_witness :
  (∃ w3, handleExit plain (ANode 0%nat) page = (w3, Ok VUndefined)
         ∧ w3 = read 0%nat "offsetHeight"
                  (written 0%nat "height" (VStr "50px")
                     (mkWorld (dom page)
                        [EvGet 0%nat "offsetHeight"; EvCss 0%nat "marginTop";
                         EvCss 0%nat "marginBottom"]))
         ∧ style_at w3 0%nat "height" = Some (VStr "50px")
         ∧ trace w3 =
           [EvGet 0%nat "offsetHeight"; EvCss 0%nat "marginTop";
            EvCss 0%nat "marginBottom"]
           ++ [EvStyleSet 0%nat "height" (VStr "50px");
               EvGet 0%nat "offsetHeight"])
  ∧ (∀ m w0, triggerBrowserReflow (ANode m) w0
             = (read m "offsetHeight" w0, Ok VUndefined)).
Proof.
  apply (exit_writes_style_before_forced_read plain 0%nat page page
           (mkWorld (dom page)
              [EvGet 0%nat "offsetHeight"; EvCss 0%nat "marginTop";
               EvCss 0%nat "marginBottom"])
           (VStr "height") (VNum (Fin 50)));
    reflexivity.
Defined.

(** C9. Whenever the exit handler returns, the last access it made is
    the forced read, and that read is of [offsetHeight], preceded by the
    style write, whatever the axis: nothing about the dimension is
    assumed. *)
Theorem forced_read_is_of_offsetHeight
    (props : Props) (n : node) (w w' : World) (v : value) :
  handleExit props (ANode n) w = (w', Ok v) →
  ∃ before name extent,
    trace w' = before ++ [EvStyleSet n name extent; EvGet n "offsetHeight"].
Proof.
  intros H. apply handleExit_cases in H.
  destruct H as [(e & _ & ?) | [(w1 & d & u & e & _ & ? & _)
                | [(w1 & d & m & e & _ & _ & _ & ?)
                | (w1 & d & m & w2 & x & _ & Hn & _ & -> & _)]]];
    try discriminate.
  injection Hn as <-.
  eexists _, _, _. unfold read, written. cbn [trace].
  rewrite <- app_assoc. reflexivity.
Qed.

(** A collapse along the width: the calculator reads [offsetWidth], the
    reflow still reads [offsetHeight]. *)
Lemma forced_read_is_of_offsetHeight_witness :
  ∃ before name extent,
    trace (handleExit sideways (ANode 0%nat) page).1 =
    before ++ [EvStyleSet 0%nat name extent; EvGet 0%nat "offsetHeight"].
Proof.
  apply (forced_read_is_of_offsetHeight sideways 0%nat page _ VUndefined).
  reflexivity.
Defined.

Example width_collapse_trace :
  trace (handleExit sideways (ANode 0%nat) page).1 =
  [EvGet 0%nat "offsetWidth"; EvCss 0%nat "marginLeft"; EvCss 0%nat "marginRight";
   EvStyleSet 0%nat "width" (VStr "200px"); EvGet 0%nat "offsetHeight"].
Proof. reflexivity. Qed.

End Cycles.

(* ================================================================== *)
(** ** The dimension resolver                                          *)
(* ================================================================== *)

Section Resolver.
Import JS DOM Collapse Spec Scenario.







(** Nothing is remembered between two invocations: with a dimension
    function that changes its answer, the enter handler called twice
    writes the height and then the width. *)
Example dimension_is_not_cached :
  trace (handleEnter responsive (ANode 0%nat)
           (handleEnter responsive (ANode 0%nat) page).1).1
  = [EvStyleSet 0%nat "height" (VStr "0"); EvStyleSet 0%nat "width" (VStr "0")].
Proof. reflexivity. Qed.

End Resolver.

(* ================================================================== *)
(** ** render                                                          *)
(* ================================================================== *)

Section Render.
Import JS DOM Collapse Spec Scenario.

Ltac lookup_other :=
  repeat (rewrite lookup_insert_ne by (discriminate || congruence));
  repeat (rewrite lookup_delete_ne by (discriminate || congruence)).

(** What [render] hands to the delegate, prop by prop. *)
Lemma render_delegate (this_props : Props) (w w' : World) (delegate : Props) :
  render this_props w = (w', Ok delegate) →
  ∃ d, _dimension this_props w = (w', Ok d)
    ∧ delegate !! "aria-expanded"
      = Some (if truthy (prop this_props "role") then prop this_props "in"
              else PVal VNull)
    ∧ delegate !! "className"
      = Some (PVal (VStr (classNames (prop this_props "className")
                                     (strict_equals d (VStr "width")))))
    ∧ delegate !! "exitedClassName" = Some (PVal (VStr "collapse"))
    ∧ delegate !! "exitingClassName" = Some (PVal (VStr "collapsing"))
    ∧ delegate !! "enteredClassName" = Some (PVal (VStr "collapse in"))
    ∧ delegate !! "enteringClassName" = Some (PVal (VStr "collapsing"))
    ∧ (∀ p, delegate !! callback_name p
            = Some (PFunc (createChainedFunction
                             (bound (internal p this_props))
                             (handler (prop this_props (callback_name p))))))
    ∧ delegate !! "dimension" = None
    ∧ delegate !! "getDimensionValue" = None
    ∧ (∀ k, k ∉ consumed ++ chained ++ set_by_component →
            delegate !! k = this_props !! k).
Proof.
  unfold render. rewrite run_bind.
  destruct (_dimension this_props w) as [w1 [d|e]]; [|discriminate].
  unfold mret, M_ret. intros H. injection H as <- <-.
  exists d. cbn [foldr destructured].
  split; [reflexivity|].
  split.
  { lookup_other. rewrite lookup_insert_eq. unfold prop. lookup_other.
    reflexivity. }
  split; [lookup_other; apply lookup_insert_eq|].
  split; [lookup_other; apply lookup_insert_eq|].
  split; [lookup_other; apply lookup_insert_eq|].
  split; [lookup_other; apply lookup_insert_eq|].
  split; [lookup_other; apply lookup_insert_eq|].
  split.
  { intros p. destruct p; cbn [callback_name internal];
      lookup_other; apply lookup_insert_eq. }
  split; [lookup_other; apply lookup_delete_eq|].
  split; [lookup_other; apply lookup_delete_eq|].
  intros k Hk. unfold consumed, chained, set_by_component in Hk.
  rewrite !not_elem_of_app, !not_elem_of_cons in Hk.
  destruct_and!. lookup_other. reflexivity.
Qed.

Lemma render_runs (this_props : Props) (w w1 : World) (d : value) :
  _dimension this_props w = (w1, Ok d) →
  ∃ delegate, render this_props w = (w1, Ok delegate).
Proof.
  intros H. unfold render. rewrite (run_bind_ok _ _ _ _ _ H).
  eexists. reflexivity.
Qed.

Lemma capitalize_cases (a : arg) :
  (∃ cap, capitalize a = mret cap) ∨ capitalize a = throw TypeError.
Proof.
  destruct a as [[| | | |[|c s]]|n]; cbn [capitalize]; eauto.
Qed.

(** The internal handlers return nothing. *)
Lemma handler_returns_undefined
    (p : phase) (props : Props) (elem : arg) (w w' : World) (v : value) :
  internal p props elem w = (w', Ok v) → v = VUndefined.
Proof.
  intros H.
  destruct (_dimension props w) as [w1 [d|e]] eqn:Hdim.
  - destruct elem as [u|n].
    + assert (Hother : p ≠ Exit → False).
      { intros Hp.
        rewrite (handler_not_a_node props p u _ _ _ Hdim) in H by (left; exact Hp).
        discriminate. }
      destruct p; try (exfalso; apply Hother; discriminate).
      cbn [internal] in H. apply handleExit_cases in H.
      destruct H as [(e & _ & ?) | [(? & ? & ? & e & _ & _ & ?)
                    | [(? & ? & ? & e & _ & ? & _)
                    | (? & ? & ? & ? & ? & _ & ? & _)]]];
        congruence.
    + destruct p; cbn [internal] in H.
      * rewrite (handleEnter_run props n _ _ _ Hdim) in H. congruence.
      * destruct (capitalize_cases (AVal d)) as [[cap Hcap]|Hcap].
        -- rewrite (handleEntering_run props n _ _ _ _ Hdim Hcap) in H.
           congruence.
        -- unfold handleEntering in H.
           rewrite (run_bind_ok _ _ _ _ _ Hdim) in H.
           unfold _getScrollDimensionValue in H. rewrite Hcap in H.
           discriminate.
      * rewrite (handleEntered_run props n _ _ _ Hdim) in H. congruence.
      * apply handleExit_cases in H.
        destruct H as [(e & _ & ?) | [(? & ? & ? & e & _ & _ & ?)
                      | [(? & ? & ? & e & _ & _ & _ & ?)
                      | (? & ? & ? & ? & ? & _ & _ & _ & _ & ?)]]];
          congruence.
      * rewrite (handleExiting_run props n _ _ _ Hdim) in H. congruence.
  - rewrite (handler_dimension_throws props p elem _ _ _ Hdim) in H.
    discriminate.
Qed.

Lemma omitted_handler (props : Props) (name : string) :
  omitted props name → handler (prop props name) = None.
Proof. unfold prop. intros [H|[H|H]]; rewrite H; reflexivity. Qed.

(** C5. For each of the five phases, the callback [render] gives to the
    delegate first runs the internal handler and then, in the world the
    internal handler left and with the same arguments, the handler of the
    user; when the internal handler throws, the handler of the user is not
    called. Without a handler of the user the callback is the internal
    handler alone. *)
Theorem chained_callback_runs_internal_handler_first
    (this_props : Props) (w w' : World) (delegate : Props) (p : phase) :
  render this_props w = (w', Ok delegate) →
  ∃ g, delegate !! callback_name p = Some (PFunc g)
    ∧ (∀ user, this_props !! callback_name p = Some (PFunc user) →
         ∀ args w0,
           match bound (internal p this_props) args w0 with
           | (w1, Ok _) =>
               g args w0 =
               match user args w1 with
               | (w2, Ok _) => (w2, Ok VUndefined)
               | (w2, Throw e) => (w2, Throw e)
               end
           | (w1, Throw e) => g args w0 = (w1, Throw e)
           end)
    ∧ (omitted this_props (callback_name p) →
         ∀ args w0, g args w0 = bound (internal p this_props) args w0).
Proof.
  intros H. apply render_delegate in H.
  destruct H as (d & _ & _ & _ & _ & _ & _ & _ & Hcb & _).
  eexists. split; [apply Hcb|]. split.
  - intros user Huser args w0. unfold prop. rewrite Huser.
    cbn [handler default from_option id].
    unfold createChainedFunction.
    destruct (bound (internal p this_props) args w0) as [w1 [v|e]] eqn:Hrun.
    + rewrite (run_bind_ok _ _ _ _ _ Hrun), run_bind.
      destruct (user args w1) as [w2 [v2|e2]]; reflexivity.
    + apply run_bind_throw. exact Hrun.
  - intros Hom args w0. rewrite (omitted_handler _ _ Hom).
    unfold createChainedFunction.
    destruct (bound (internal p this_props) args w0) as [w1 [v|e]] eqn:Hrun.
    + rewrite (run_bind_ok _ _ _ _ _ Hrun).
      unfold bound in Hrun. apply handler_returns_undefined in Hrun.
      subst v. reflexivity.
    + apply run_bind_throw. exact Hrun.
Qed.

(** With [onEnter={mark}], the enter callback of the delegate sets the
    height to ['0'] and only then lets [mark] outline the same node. *)
Lemma chained_callback_runs_internal_handler_first_witness :
  ∃ g,
    rendered marked !! "onEnter" = Some (PFunc g)
    ∧ g [ANode 0%nat] page =
      (written 0%nat "outline" (VStr "1px solid")
         (written 0%nat "height" (VStr "0") page), Ok VUndefined).
Proof.
  assert (Hr : render marked page = (page, Ok (rendered marked)))
    by (reflexivity).
  destruct (chained_callback_runs_internal_handler_first
              marked page page (rendered marked) Enter Hr) as (g & Hg & Huser & _).
  exists g. split; [exact Hg|].
  assert (Hm : marked !! callback_name Enter = Some (PFunc mark))
    by (reflexivity).
  exact (Huser mark Hm [ANode 0%nat] page).
Defined.

(** C7, as the code has it. The flag [aria-expanded] is the value of
    [in] exactly when the role is truthy, that is, a non-empty string; it
    is [null] (absent, not [false]) when the role is left out or empty. *)
Theorem aria_expanded_follows_truthy_role
    (this_props : Props) (w w' : World) (delegate : Props) (shown : bool) :
  render this_props w = (w', Ok delegate) →
  this_props !! "in" = Some (PVal (VBool shown)) →
  (truthy (prop this_props "role") = true →
     delegate !! "aria-expanded" = Some (PVal (VBool shown)))
  ∧ (truthy (prop this_props "role") = false →
     delegate !! "aria-expanded" = Some (PVal VNull))
  ∧ (∀ r, this_props !! "role" = Some (PVal (VStr r)) →
          truthy (prop this_props "role") = true ↔ r ≠ EmptyString)
  ∧ (this_props !! "role" = None → truthy (prop this_props "role") = false).
Proof.
  intros H Hin. apply render_delegate in H.
  destruct H as (d & _ & Haria & _). rewrite Haria.
  split; [|split; [|split]].
  - intros ->. unfold prop. rewrite Hin. reflexivity.
  - intros ->. reflexivity.
  - intros r Hr. unfold prop. rewrite Hr. cbn [default from_option id truthy to_boolean].
    rewrite negb_true_iff, String.eqb_neq. reflexivity.
  - intros Hr. unfold prop. rewrite Hr. reflexivity.
Qed.

Lemma aria_expanded_follows_truthy_role_witness :
  rendered tab_panel !! "aria-expanded" = Some (PVal (VBool true)).
Proof.
  apply (aria_expanded_follows_truthy_role
           tab_panel page page (rendered tab_panel) true);
    reflexivity.
Defined.

(** C7, as stated, fails: a role that is specified as the empty string
    gets no flag although the component is shown. *)
Lemma empty_role_emits_no_flag :
  empty_role !! "role" = Some (PVal (VStr EmptyString))
  ∧ empty_role !! "in" = Some (PVal (VBool true))
  ∧ match render empty_role page with
    | (_, Ok delegate) => delegate !! "aria-expanded"
    | (_, Throw _) => None
    end = Some (PVal VNull).
Proof. repeat split; reflexivity. Qed.

Lemma strict_equals_width (d : value) :
  strict_equals d (VStr "width") = true ↔ d = VStr "width".
Proof.
  destruct d as [| | b | [z| |s] | s]; cbn [strict_equals];
    try (split; intros; discriminate).
  rewrite String.eqb_eq. split; congruence.
Qed.

(** C8. The [width] flag of the class object is true exactly when the
    resolved dimension is ['width']; and on the width axis, with the
    calculator of the component, the accesses of each phase handler write
    no inline style but [width], and every other inline style of every
    node is as before. *)
Theorem width_flag_and_width_only_writes (props : Props) (d : value) :
  (∀ w, _dimension props w = (w, Ok d)) →
  props !! "getDimensionValue" = defaultProps !! "getDimensionValue" →
  (∀ w, ∃ delegate flag,
      render props w = (w, Ok delegate)
      ∧ delegate !! "className"
        = Some (PVal (VStr (classNames (prop props "className") flag)))
      ∧ (flag = true ↔ d = VStr "width"))
  ∧ (d = VStr "width" →
     ∀ p n w, ∃ w' accesses,
       internal p props (ANode n) w = (w', Ok VUndefined)
       ∧ trace w' = trace w ++ accesses
       ∧ Forall (writes_only "width") accesses
       ∧ (∀ m key, key ≠ "width"%string →
                   style_at w' m key = style_at w m key)).
Proof.
  intros Hdim Hcalc. split.
  - intros w. destruct (render_runs props w w d (Hdim w)) as [delegate Hr].
    exists delegate, (strict_equals d (VStr "width")).
    split; [exact Hr|]. split; [|apply strict_equals_width].
    apply render_delegate in Hr.
    destruct Hr as (d' & Hd' & _ & Hcls & _).
    rewrite Hdim in Hd'. injection Hd' as <-. exact Hcls.
  - intros -> p n w. destruct p; cbn [internal].
    + rewrite (handleEnter_run props n w w _ (Hdim w)).
      eexists _, [_]. split; [reflexivity|]. split; [reflexivity|].
      split; [repeat constructor|].
      intros m key Hkey. apply style_at_written_other, Hkey.
    + rewrite (handleEntering_run props n w w _ "Width" (Hdim w) eq_refl).
      eexists _, [_; _]. split; [reflexivity|].
      split; [unfold written, read; cbn [trace]; rewrite <- app_assoc; reflexivity|].
      split; [repeat constructor|].
      intros m key Hkey. rewrite style_at_written_other by exact Hkey.
      apply style_at_read.
    + rewrite (handleEntered_run props n w w _ (Hdim w)).
      eexists _, [_]. split; [reflexivity|]. split; [reflexivity|].
      split; [repeat constructor|].
      intros m key Hkey. apply style_at_written_other, Hkey.
    + assert (Hcall :
        call (prop props "getDimensionValue") [AVal (VStr "width"); ANode n] w
        = getDimensionValue (AVal (VStr (axis_name Width))) (ANode n) w)
        by (rewrite (calculator_of_props _ Hcalc); reflexivity).
      rewrite getDimensionValue_axis in Hcall.
      rewrite (handleExit_run props n w w _ _ _ (Hdim w) Hcall).
      eexists _, [_; _; _; _; _]. split; [reflexivity|].
      split; [unfold written, read; cbn [trace]; rewrite <- !app_assoc; reflexivity|].
      split; [repeat constructor|].
      intros m key Hkey. rewrite style_at_read.
      rewrite style_at_written_other by exact Hkey. reflexivity.
    + rewrite (handleExiting_run props n w w _ (Hdim w)).
      eexists _, [_]. split; [reflexivity|]. split; [reflexivity|].
      split; [repeat constructor|].
      intros m key Hkey. apply style_at_written_other, Hkey.
Qed.

(** [<Collapse dimension="width" className="panel">]: the class string
    carries [width], and the exit handler leaves the height alone. *)
Lemma width_flag_and_width_only_writes_witness :
  (∃ delegate,
      render sideways_panel page = (page, Ok delegate)
      ∧ delegate !! "className" = Some (PVal (VStr "panel width")))
  ∧ (∃ w', handleExit sideways_panel (ANode 0%nat) page = (w', Ok VUndefined)
           ∧ style_at w' 0%nat "height" = style_at page 0%nat "height").
Proof.
  destruct (width_flag_and_width_only_writes sideways_panel (VStr "width"))
    as [Hflag Hwrites].
  - intros w. reflexivity.
  - reflexivity.
  - split.
    + destruct (Hflag page) as (delegate & flag & Hr & Hcls & Hiff).
      exists delegate. split; [exact Hr|].
      rewrite Hcls. destruct Hiff as [_ Htrue]. rewrite (Htrue eq_refl).
      reflexivity.
    + destruct (Hwrites eq_refl Exit 0%nat page) as (w' & acc & Hrun & _ & _ & Hst).
      exists w'. split; [exact Hrun|]. apply Hst. discriminate.
Defined.

(** C10, as the code has it. [dimension] and [getDimensionValue] do not
    reach the delegate; the five phase callbacks reach it as chained
    functions; [className] reaches it as the class string built from the
    supplied class name and the flag that the resolved dimension is
    ['width']; [aria-expanded] and the four class names of the transition
    states are set by the component, whatever was supplied under these
    names; every other prop reaches the delegate as it was supplied, and a
    prop that was not supplied is not added. *)
Theorem props_forwarded_to_delegate
    (this_props : Props) (w w' : World) (delegate : Props) :
  render this_props w = (w', Ok delegate) →
  (∀ k, k ∈ consumed → delegate !! k = None)
  ∧ (∀ p, delegate !! callback_name p
          = Some (PFunc (createChainedFunction
                           (bound (internal p this_props))
                           (handler (prop this_props (callback_name p))))))
  ∧ (∃ d, _dimension this_props w = (w', Ok d)
          ∧ delegate !! "className"
            = Some (PVal (VStr (classNames (prop this_props "className")
                                           (strict_equals d (VStr "width"))))))
  ∧ delegate !! "aria-expanded"
    = Some (if truthy (prop this_props "role") then prop this_props "in"
            else PVal VNull)
  ∧ delegate !! "exitedClassName" = Some (PVal (VStr "collapse"))
  ∧ delegate !! "exitingClassName" = Some (PVal (VStr "collapsing"))
  ∧ delegate !! "enteredClassName" = Some (PVal (VStr "collapse in"))
  ∧ delegate !! "enteringClassName" = Some (PVal (VStr "collapsing"))
  ∧ (∀ k, k ∉ consumed ++ chained ++ set_by_component →
          delegate !! k = this_props !! k).
Proof.
  intros H. apply render_delegate in H.
  destruct H as (d & Hdim & Haria & Hcls & H1 & H2 & H3 & H4 & Hcb & Hd & Hg & Hrest).
  split.
  { intros k Hk. unfold consumed in Hk.
    rewrite !elem_of_cons, elem_of_nil in Hk.
    destruct Hk as [->|[->|[]]]; assumption. }
  split; [exact Hcb|].
  split; [exists d; split; [exact Hdim | exact Hcls]|].
  repeat (split; [assumption|]). exact Hrest.
Qed.

Lemma props_forwarded_to_delegate_witness :
  rendered sideways_panel !! "dimension" = None
  ∧ rendered sideways_panel !! "className" = Some (PVal (VStr "panel width"))
  ∧ rendered sideways_panel !! "timeout" = sideways_panel !! "timeout"
  ∧ rendered sideways_panel !! "onExited" = sideways_panel !! "onExited".
Proof.
  destruct (props_forwarded_to_delegate
              sideways_panel page page (rendered sideways_panel))
    as (Hc & _ & (d & Hd & Hcls) & _ & _ & _ & _ & _ & Hrest).
  - reflexivity.
  - split; [apply Hc; unfold consumed; apply elem_of_cons; left; reflexivity|].
    split.
    { change (_dimension sideways_panel page)
        with (page, Ok (VStr "width")) in Hd.
      injection Hd as <-. exact Hcls. }
    assert (Hout : ∀ k,
      bool_decide (k ∈ consumed ++ chained ++ set_by_component) = false →
      rendered sideways_panel !! k = sideways_panel !! k).
    { intros k Hk. apply Hrest. apply bool_decide_eq_false in Hk. exact Hk. }
    split; apply Hout; reflexivity.
Defined.

(** C10, as stated, fails on [className], which is none of the seven
    props the claim lets the component take: supplied as ['panel'] on a
    width collapse, it reaches the delegate as ['panel width']. *)
Lemma className_is_not_forwarded_unchanged :
  ("className"%string ∉ consumed ++ chained)
  ∧ sideways_panel !! "className" = Some (PVal (VStr "panel"))
  ∧ match render sideways_panel page with
    | (_, Ok delegate) => delegate !! "className"
    | (_, Throw _) => None
    end = Some (PVal (VStr "panel width"))
  ∧ Some (PVal (VStr "panel width")) ≠ Some (PVal (VStr "panel")).
Proof.
  split; [|repeat split; try (reflexivity); discriminate].
  unfold consumed, chained. rewrite !not_elem_of_app, !not_elem_of_cons.
  repeat split; (discriminate || apply not_elem_of_nil).
Qed.

End Render.

(* ================================================================== *)
(** ** Further properties of the calculator                            *)
(* ================================================================== *)

Section CalculatorEdges.
Import JS DOM Collapse Spec Scenario.

Lemma capitalize_string (s : string) :
  ∃ cap, capitalize (AVal (VStr s)) = mret cap.
Proof. destruct s as [|c r]; cbn [capitalize]; eauto. Qed.

(** The calculator for a dimension without margins: the offset property
    is read, then indexing the missing pair is a TypeError. *)
Lemma getDimensionValue_no_margins (d : arg) (cap : string) (n : node) (w : World) :
  capitalize d = mret cap →
  margins_of d = None →
  getDimensionValue d (ANode n) w
  = (read n ("offset" +:+ cap) w, Throw TypeError).
Proof.
  intros Hcap Hm. unfold getDimensionValue. rewrite Hcap, Hm. reflexivity.
Qed.




(** X8. A margin whose CSS value starts with an integer and goes on with
    anything but a digit counts as that integer: the unit is ignored and a
    fraction is cut off, towards zero. *)
Theorem margins_count_their_integer_part
    (a : axis) (n : node) (w : World) (E m1 m2 : Z) (rest1 rest2 : string) :
  fields (dom w n) !! offset_property a = Some (VNum (Fin E)) →
  css_value (dom w n) (leading_margin a) = VStr (pretty m1 +:+ rest1) →
  css_value (dom w n) (trailing_margin a) = VStr (pretty m2 +:+ rest2) →
  no_digit_ahead rest1 → no_digit_ahead rest2 →
  safe m1 → safe m2 → safe (E + m1) → safe (E + m1 + m2) →
  ∃ w1, getDimensionValue (AVal (VStr (axis_name a))) (ANode n) w
        = (w1, Ok (VNum (Fin (E + m1 + m2)))).
Proof.
  intros HE H1 H2 Hr1 Hr2 Hs1 Hs2 Hs3 Hs4.
  rewrite getDimensionValue_axis, HE, H1, H2.
  rewrite (parseInt_length _ _ Hr1 Hs1), (parseInt_length _ _ Hr2 Hs2).
  cbn [default from_option id js_add to_number num_add].
  rewrite (round_double_safe _ Hs3). cbn [num_add].
  rewrite (round_double_safe _ Hs4). eexists. reflexivity.
Qed.

(** Height 40 with margins [4.75px] and [-6.5px]: 40 + 4 - 6. *)
Lemma margins_count_their_integer_part_witness :
  ∃ w1, getDimensionValue (AVal (VStr "height")) (ANode 0%nat) uneven_page
        = (w1, Ok (VNum (Fin 38))).
Proof.
  apply (margins_count_their_integer_part Height 0%nat uneven_page 40 4 (-6)
           ".75px" ".5px");
    reflexivity.
Defined.

(** X10. When the element has no offset property for the axis, or one of
    its margins does not start with an integer, the exit handler of a
    component with the calculator of the file does not fail: it sets the
    inline style of the axis to ['NaNpx'] and goes on to the reflow. *)
Theorem exit_writes_NaN_pixels
    (a : axis) (props : Props) (n : node) (w : World) :
  _dimension props w = (w, Ok (VStr (axis_name a))) →
  props !! "getDimensionValue" = defaultProps !! "getDimensionValue" →
  fields (dom w n) !! offset_property a = None
  ∨ (∃ x, fields (dom w n) !! offset_property a = Some (VNum x))
    ∧ (no_leading_integer (css_value (dom w n) (leading_margin a))
       ∨ no_leading_integer (css_value (dom w n) (trailing_margin a))) →
  ∃ w', handleExit props (ANode n) w = (w', Ok VUndefined)
        ∧ style_at w' n (axis_name a) = Some (VStr "NaNpx").
Proof.
  intros Hdim Hcalc Hbad.
  assert (Hcall :
    call (prop props "getDimensionValue")
         [AVal (VStr (axis_name a)); ANode n] w =
    (mkWorld (dom w)
       (trace w ++ [EvGet n (offset_property a); EvCss n (leading_margin a);
                    EvCss n (trailing_margin a)]),
     Ok (VNum NaN))).
  { rewrite (calculator_of_props _ Hcalc). cbn [call argument].
    change (getDimensionValue (AVal (VStr (axis_name a))) (ANode n) w = 
            (mkWorld (dom w)
               (trace w ++ [EvGet n (offset_property a); EvCss n (leading_margin a);
                            EvCss n (trailing_margin a)]),
             Ok (VNum NaN))).
    rewrite getDimensionValue_axis. f_equal. f_equal.
    destruct Hbad as [Hnone | [[x Hx] [Hl | Ht]]].
    - rewrite Hnone. reflexivity.
    - rewrite Hx, Hl. cbn [default from_option id js_add to_number].
      f_equal. rewrite num_add_NaN_r. reflexivity.
    - rewrite Hx, Ht. cbn [default from_option id js_add to_number].
      f_equal. apply num_add_NaN_r. }
  rewrite (handleExit_run props n w w _ _ _ Hdim Hcall).
  eexists. split; [reflexivity|].
  rewrite style_at_read. apply style_at_written.
Qed.

Lemma exit_writes_NaN_pixels_witness :
  ∃ w', handleExit plain (ANode 0%nat) graphic_page = (w', Ok VUndefined)
        ∧ style_at w' 0%nat "height" = Some (VStr "NaNpx").
Proof.
  apply (exit_writes_NaN_pixels Height plain 0%nat graphic_page);
    [reflexivity | reflexivity | left; reflexivity].
Defined.

End CalculatorEdges.

(* ================================================================== *)
(** ** Further properties of the handlers and of render                *)
(* ================================================================== *)

Section HandlerEdges.
Import JS DOM Collapse Spec Scenario.

Lemma style_at_written_elsewhere
    (n m : node) (name key : string) (v : value) (w : World) :
  m ≠ n ∨ key ≠ name →
  style_at (written n name v w) m key = style_at w m key.
Proof.
  intros [Hm|Hkey]; [|apply style_at_written_other, Hkey].
  unfold style_at, written. cbn [dom].
  rewrite fn_lookup_insert_ne by congruence. reflexivity.
Qed.

(** X1. The collapse cycle: once the exit handler has the extent, it sets
    the inline style of the dimension to the extent in pixels and forces
    the reflow; the exiting handler then sets the same style to ['0'],
    and these three are all the accesses the two handlers add. *)
Theorem collapse_cycle_inline_style
    (props : Props) (n : node) (w w1 : World) (d extent : value) :
  (∀ w0, _dimension props w0 = (w0, Ok d)) →
  call (prop props "getDimensionValue") [AVal d; ANode n] w = (w1, Ok extent) →
  ∃ w2 w3,
    handleExit props (ANode n) w = (w2, Ok VUndefined)
    ∧ style_at w2 n (to_string d) = Some (VStr (to_string extent +:+ "px"))
    ∧ handleExiting props (ANode n) w2 = (w3, Ok VUndefined)
    ∧ style_at w3 n (to_string d) = Some (VStr "0")
    ∧ trace w3 =
      trace w1 ++ [EvStyleSet n (to_string d) (VStr (to_string extent +:+ "px"));
                   EvGet n "offsetHeight";
                   EvStyleSet n (to_string d) (VStr "0")].
Proof.
  intros Hdim Hcall.
  eexists _, _. split; [apply (handleExit_run props n w w w1 d extent (Hdim w) Hcall)|].
  split; [rewrite style_at_read; apply style_at_written|].
  split; [apply handleExiting_run, Hdim|].
  split; [apply style_at_written|].
  unfold written, read. cbn [trace]. rewrite <- !app_assoc. reflexivity.
Qed.

Lemma collapse_cycle_inline_style_witness :
  ∃ w2 w3,
    handleExit plain (ANode 0%nat) page = (w2, Ok VUndefined)
    ∧ style_at w2 0%nat "height" = Some (VStr "50px")
    ∧ handleExiting plain (ANode 0%nat) w2 = (w3, Ok VUndefined)
    ∧ style_at w3 0%nat "height" = Some (VStr "0")
    ∧ trace w3 =
      [EvGet 0%nat "offsetHeight"; EvCss 0%nat "marginTop";
       EvCss 0%nat "marginBottom"]
      ++ [EvStyleSet 0%nat "height" (VStr "50px");
          EvGet 0%nat "offsetHeight";
          EvStyleSet 0%nat "height" (VStr "0")].
Proof.
  apply (collapse_cycle_inline_style plain 0%nat page
           (mkWorld (dom page)
              [EvGet 0%nat "offsetHeight"; EvCss 0%nat "marginTop";
               EvCss 0%nat "marginBottom"])
           (VStr "height") (VNum (Fin 50))).
  - intros w0. reflexivity.
  - reflexivity.
Defined.

(** X2. A handler called without an element (with no argument, with
    [undefined] or with [null]) throws a TypeError once the dimension is
    resolved: nothing is written, and the exit handler does not call the
    calculator. The enter, entering, entered and exiting handlers do so
    for any primitive in place of the element. *)
Theorem handler_without_node_throws
    (props : Props) (p : phase) (args : list arg) (v : value)
    (w w1 : World) (d : value) :
  _dimension props w = (w1, Ok d) →
  argument args 0 = AVal v →
  p ≠ Exit ∨ v = VUndefined ∨ v = VNull →
  bound (internal p props) args w = (w1, Throw TypeError).
Proof.
  intros Hdim Harg Hv. unfold bound. rewrite Harg.
  apply (handler_not_a_node props p v w w1 d Hdim Hv).
Qed.

Lemma handler_without_node_throws_witness :
  bound (internal Exit plain) [] page = (page, Throw TypeError).
Proof.
  apply (handler_without_node_throws plain Exit [] VUndefined page page
           (VStr "height"));
    [reflexivity | reflexivity | right; left; reflexivity].
Defined.

(** X3. What the dimension function throws comes out of [render] and of
    every handler, whatever the handler is called with, and the page is as
    the function left it. *)
Theorem dimension_failure_propagates
    (props : Props) (w w1 : World) (e : exn) :
  _dimension props w = (w1, Throw e) →
  render props w = (w1, Throw e)
  ∧ ∀ p args, bound (internal p props) args w = (w1, Throw e).
Proof.
  intros H. split.
  - unfold render. apply run_bind_throw. exact H.
  - intros p args. unfold bound. apply handler_dimension_throws. exact H.
Qed.

Lemma dimension_failure_propagates_witness :
  render unresolved page = (page, Throw (Thrown (VStr "no viewport")))
  ∧ ∀ p args, bound (internal p unresolved) args page
              = (page, Throw (Thrown (VStr "no viewport"))).
Proof.
  apply (dimension_failure_propagates unresolved page page
           (Thrown (VStr "no viewport"))).
  reflexivity.
Defined.

(** X4. The exit handler fails without writing when the calculator
    fails: when [getDimensionValue] is not a function it throws a
    TypeError, and what a calculator throws it throws too; in both cases
    the inline style is not set and the reflow is not forced. *)
Theorem exit_fails_without_writing
    (props : Props) (n : node) (w w1 : World) (d : value) :
  _dimension props w = (w1, Ok d) →
  (∀ v, prop props "getDimensionValue" = PVal v →
        handleExit props (ANode n) w = (w1, Throw TypeError))
  ∧ (∀ g w2 e, prop props "getDimensionValue" = PFunc g →
               g [AVal d; ANode n] w1 = (w2, Throw e) →
               handleExit props (ANode n) w = (w2, Throw e)).
Proof.
  intros Hdim. split.
  - intros v Hv. apply (handleExit_calculator_throws props n w w1 w1 d _ Hdim).
    rewrite Hv. reflexivity.
  - intros g w2 e Hg Hthrow.
    apply (handleExit_calculator_throws props n w w1 w2 d _ Hdim).
    rewrite Hg. exact Hthrow.
Qed.

(** With [getDimensionValue={null}] no default takes its place. *)
Lemma exit_fails_without_writing_witness :
  handleExit without_calculator (ANode 0%nat) page = (page, Throw TypeError).
Proof.
  destruct (exit_fails_without_writing without_calculator 0%nat page page
              (VStr "height")) as [Hmissing _].
  - reflexivity.
  - apply (Hmissing VNull). reflexivity.
Defined.

(** X6. On either axis, with the calculator of the file, each of the
    five handlers returns and sets no inline style but the one of the axis
    on the node it is given: every other inline style of that node and
    every inline style of every other node is as before. *)
Theorem handler_writes_one_style
    (props : Props) (a : axis) (p : phase) (n : node) (w : World) :
  (∀ w0, _dimension props w0 = (w0, Ok (VStr (axis_name a)))) →
  props !! "getDimensionValue" = defaultProps !! "getDimensionValue" →
  ∃ w', internal p props (ANode n) w = (w', Ok VUndefined)
        ∧ ∀ m key, m ≠ n ∨ key ≠ axis_name a →
                   style_at w' m key = style_at w m key.
Proof.
  intros Hdim Hcalc. destruct p; cbn [internal].
  - rewrite (handleEnter_run props n w w _ (Hdim w)).
    eexists. split; [reflexivity|].
    intros m key Hne. apply style_at_written_elsewhere, Hne.
  - rewrite (handleEntering_run props n w w _ _ (Hdim w) (capitalize_axis a)).
    eexists. split; [reflexivity|].
    intros m key Hne. rewrite style_at_written_elsewhere by exact Hne.
    apply style_at_read.
  - rewrite (handleEntered_run props n w w _ (Hdim w)).
    eexists. split; [reflexivity|].
    intros m key Hne. apply style_at_written_elsewhere, Hne.
  - assert (Hcall :
      call (prop props "getDimensionValue") [AVal (VStr (axis_name a)); ANode n] w
      = getDimensionValue (AVal (VStr (axis_name a))) (ANode n) w)
      by (rewrite (calculator_of_props _ Hcalc); reflexivity).
    rewrite getDimensionValue_axis in Hcall.
    rewrite (handleExit_run props n w w _ _ _ (Hdim w) Hcall).
    eexists. split; [reflexivity|].
    intros m key Hne. rewrite style_at_read.
    rewrite style_at_written_elsewhere by exact Hne. reflexivity.
  - rewrite (handleExiting_run props n w w _ (Hdim w)).
    eexists. split; [reflexivity|].
    intros m key Hne. apply style_at_written_elsewhere, Hne.
Qed.

Lemma handler_writes_one_style_witness :
  ∃ w', handleExit plain (ANode 0%nat) page = (w', Ok VUndefined)
        ∧ ∀ m key, m ≠ 0%nat ∨ key ≠ "height"%string →
                   style_at w' m key = style_at page m key.
Proof.
  apply (handler_writes_one_style plain Height Exit 0%nat page).
  - intros w0. reflexivity.
  - reflexivity.
Defined.

(** X7. A dimension that is a string without margins (neither ['height']
    nor ['width'], nor a name every object has) expands but cannot
    collapse: the enter and exiting handlers set the inline style of that
    name to ['0'], while the exit handler, with the calculator of the
    file, throws a TypeError and leaves the elements as they were. *)
Theorem dimension_without_margins_cannot_collapse
    (props : Props) (d : string) (n : node) (w : World) :
  d ∉ "height"%string :: "width"%string :: inherited_names →
  (∀ w0, _dimension props w0 = (w0, Ok (VStr d))) →
  props !! "getDimensionValue" = defaultProps !! "getDimensionValue" →
  handleEnter props (ANode n) w = (written n d (VStr "0") w, Ok VUndefined)
  ∧ handleExiting props (ANode n) w = (written n d (VStr "0") w, Ok VUndefined)
  ∧ ∃ w', handleExit props (ANode n) w = (w', Throw TypeError)
          ∧ dom w' = dom w.
Proof.
  intros Hd Hdim Hcalc.
  split; [apply (handleEnter_run props n w w (VStr d) (Hdim w))|].
  split; [apply (handleExiting_run props n w w (VStr d) (Hdim w))|].
  apply not_elem_of_cons in Hd as [Hh Hd].
  apply not_elem_of_cons in Hd as [Hw _].
  assert (Hm : margins_of (AVal (VStr d)) = None).
  { cbn [margins_of to_string]. unfold MARGINS.
    rewrite !lookup_insert_ne by congruence. apply lookup_empty. }
  destruct (capitalize_string d) as [cap Hcap].
  eexists. split.
  - apply (handleExit_calculator_throws props n w w _ (VStr d) _ (Hdim w)).
    rewrite (calculator_of_props _ Hcalc).
    apply (getDimensionValue_no_margins _ cap n w Hcap Hm).
  - reflexivity.
Qed.

Lemma dimension_without_margins_cannot_collapse_witness :
  handleEnter misdirected (ANode 0%nat) page
  = (written 0%nat "top" (VStr "0") page, Ok VUndefined)
  ∧ handleExiting misdirected (ANode 0%nat) page
    = (written 0%nat "top" (VStr "0") page, Ok VUndefined)
  ∧ ∃ w', handleExit misdirected (ANode 0%nat) page = (w', Throw TypeError)
          ∧ dom w' = dom page.
Proof.
  apply (dimension_without_margins_cannot_collapse misdirected "top" 0%nat page).
  - refine (proj1 (bool_decide_eq_false _) _). reflexivity.
  - intros w0. reflexivity.
  - reflexivity.
Defined.

End HandlerEdges.
